(** * EduMap dashboard: the data pipeline of [dashboard.py]

    A shallow embedding of the data-transformation part of the Streamlit
    dashboard (preprocessing, region filter, KPIs, group-by charts and the
    two map layers), followed by the properties of the pipeline.

    Modelling conventions.
    - A pandas [DataFrame] is a list of rows, in index order.  Boolean-mask
      selection [df[mask]] is [List.filter].
    - A nullable numeric cell (float64 with NaN) is an [option]; [None] is
      NaN.  Counts are integer valued, so their payload is [Z]; ratios and
      coordinates are [Q].  Integer columns produced by [astype(int)] are
      plain [Z].
    - [Province] and [District] are plain strings: line 30 and line 35 call
      [sorted] on their unique values, which only works on a column
      without missing values.
    - A Python exception is the [Raise] branch of [result]. *)

From Stdlib Require Import ZArith QArith Qround Qabs Lqa List String Bool Lia.
From Stdlib Require Import Sorting.Permutation Sorting.Sorted.
From Stdlib Require Import Structures.OrderedTypeEx.
Import ListNotations.
Local Open Scope Z_scope.

(** ** Exceptions *)

Inductive exn : Type :=
| IntCastingNaNError.   (* astype(int) met a NaN *)

Inductive result (A : Type) : Type :=
| Ok (a : A)
| Raise (e : exn).
Arguments Ok {A} a.
Arguments Raise {A} e.

Definition bind {A B : Type} (m : result A) (k : A -> result B) : result B :=
  match m with
  | Ok a => k a
  | Raise e => Raise e
  end.

Notation "x <- m ;; k" := (bind m (fun x => k))
  (at level 61, m at next level, right associativity).

Fixpoint mapM {A B : Type} (f : A -> result B) (l : list A) : result (list B) :=
  match l with
  | [] => Ok []
  | a :: l' => b <- f a ;; bs <- mapM f l' ;; Ok (b :: bs)
  end.

(** ** The pandas operations the script calls *)

Module Pandas.

(** [Series.notna()] and [pd.isna], cell by cell. *)
Definition notna {A : Type} (x : option A) : bool :=
  match x with Some _ => true | None => false end.

Definition isna {A : Type} (x : option A) : bool := negb (notna x).

(** [Series.fillna(v)]: the dtype stays nullable, the NaN is gone. *)
Definition fillna {A : Type} (v : A) (x : option A) : option A :=
  match x with Some a => Some a | None => Some v end.

(** Arithmetic on nullable cells propagates NaN. *)
Definition lift2 {A B C : Type} (f : A -> B -> C)
           (x : option A) (y : option B) : option C :=
  match x, y with
  | Some a, Some b => Some (f a b)
  | _, _ => None
  end.

Definition add : option Z -> option Z -> option Z := lift2 Z.add.
Definition sub : option Z -> option Z -> option Z := lift2 Z.sub.

(** [series > c] and [x <= c]: a comparison with NaN is False. *)
Definition gt (x : option Z) (c : Z) : bool :=
  match x with Some v => c <? v | None => false end.

Definition le (x : option Z) (c : Z) : bool :=
  match x with Some v => v <=? c | None => false end.

(** [series / c]: true division, so the quotient is a fraction. *)
Definition truediv (x : option Z) (c : positive) : option Q :=
  option_map (fun v => inject_Z v / inject_Z (Z.pos c))%Q x.

(** [Series.round()] rounds to the nearest integer and sends a tie to the
    even neighbour (it is numpy's [rint]). *)
Definition round_half_even (x : Q) : Z :=
  let f := Qfloor x in
  match Qcompare (x - inject_Z f) (1 # 2) with
  | Lt => f
  | Gt => f + 1
  | Eq => if Z.even f then f else f + 1
  end.

Definition round (x : option Q) : option Z := option_map round_half_even x.

(** [Series.astype(int)] on an integer-valued float: fails on NaN. *)
Definition astype_int (x : option Z) : result Z :=
  match x with
  | Some v => Ok v
  | None => Raise IntCastingNaNError
  end.

(** [Series.clip(lower=lo)]; NaN stays NaN. *)
Definition clip_lower (lo : Z) (x : option Z) : option Z :=
  option_map (fun v => if v <? lo then lo else v) x.

(** [Series.sum()] skips NaN; the sum of nothing is 0. *)
Fixpoint sum (col : list (option Z)) : Z :=
  match col with
  | [] => 0
  | Some v :: col' => v + sum col'
  | None :: col' => sum col'
  end.

(** [Series.mean()] skips NaN; the mean of nothing is NaN.  The quotient is
    exact here; pandas rounds it to the nearest float. *)
Fixpoint sumQ (col : list (option Q)) : Q :=
  match col with
  | [] => 0%Q
  | Some v :: col' => (v + sumQ col')%Q
  | None :: col' => sumQ col'
  end.

Fixpoint count {A : Type} (col : list (option A)) : nat :=
  match col with
  | [] => O
  | Some _ :: col' => S (count col')
  | None :: col' => count col'
  end.

Definition mean (col : list (option Q)) : option Q :=
  match count col with
  | O => None
  | S n => Some (sumQ col / inject_Z (Z.of_nat (S n)))%Q
  end.

(** Bin edges of [pd.cut]: a number or [float("inf")]. *)
Inductive edge : Type :=
| Fin (z : Z)
| Inf.

Definition edge_ltb (e : edge) (x : Z) : bool :=
  match e with Fin z => z <? x | Inf => false end.

Definition leb_edge (x : Z) (e : edge) : bool :=
  match e with Fin z => x <=? z | Inf => true end.

(** [pd.cut(x, bins, labels)] with the default [right=True]: the i-th
    label is given to the values of the half-open interval
    (bins[i], bins[i+1]]; a value in no interval becomes NaN. *)
Fixpoint cut_from {L : Type} (lo : edge) (his : list edge) (labels : list L)
         (x : Z) : option L :=
  match his, labels with
  | hi :: his', lab :: labels' =>
      if edge_ltb lo x && leb_edge x hi then Some lab
      else cut_from hi his' labels' x
  | _, _ => None
  end.

Definition cut {L : Type} (bins : list edge) (labels : list L)
           (x : option Z) : option L :=
  match x, bins with
  | Some v, lo :: his => cut_from lo his labels v
  | _, _ => None
  end.

(** [df.groupby(key)]: one group per distinct key, the groups in
    ascending key order (the default [sort=True]), the rows of a group in
    frame order. *)
Fixpoint group_insert {A : Type} (k : string) (a : A)
         (gs : list (string * list A)) : list (string * list A) :=
  match gs with
  | [] => [(k, [a])]
  | (k', g) :: gs' =>
      match String.compare k k' with
      | Lt => (k, [a]) :: (k', g) :: gs'
      | Eq => (k', a :: g) :: gs'
      | Gt => (k', g) :: group_insert k a gs'
      end
  end.

Definition groupby {A : Type} (key : A -> string) (df : list A)
  : list (string * list A) :=
  fold_right (fun a gs => group_insert (key a) a gs) [] df.

(** [sort_values(col, ascending=False)], as an insertion sort.  pandas
    leaves the order of equal values open; here they keep their order. *)
Fixpoint insert_desc {A : Type} (val : A -> Z) (a : A) (l : list A) : list A :=
  match l with
  | [] => [a]
  | b :: l' => if val b <=? val a then a :: b :: l'
               else b :: insert_desc val a l'
  end.

Definition sort_values_desc {A : Type} (val : A -> Z) (l : list A) : list A :=
  fold_right (insert_desc val) [] l.

(** [df.head(n)] *)
Definition head {A : Type} (n : nat) (l : list A) : list A := firstn n l.

End Pandas.

(** ** The data model *)

(** One row of [kenya_primary_schools_updated.csv] as [pd.read_csv] loads
    it: [index] is the row label of the frame, the other fields are the
    columns the script reads. *)
Record Row : Type := {
  index : nat;
  Name_of_Sc : option string;
  Province : string;
  District : string;
  Latitude : option Q;
  Longitude : option Q;
  TotalEnrol : option Z;
  TotalGirls : option Z;
  TotalBoys : option Z;
  GO_KTSC_M : option Z;
  authorityM : option Z;
  PTA_BOG_M : option Z;
  OthersM : option Z;
  GOK_TSC_F : option Z;
  authorityF : option Z;
  PTA_BOG_F : option Z;
  OthersF : option Z;
  PupilTeach : option Q;
  No_Classrm : option Z;
  TotalToile : option Z
}.

(** A row of [df] once lines 14-22 have run: the loaded columns (the eight
    teacher columns overwritten by line 14) and the columns the script
    adds. *)
Record SchoolRecord : Type := {
  row : Row;
  Male_Teachers : option Z;
  Female_Teachers : option Z;
  Total_Teachers_Recalc : option Z;
  Teachers_Required : Z;
  Teacher_Shortage : option Z;
  Gender_Enrol_Gap : option Z;
  No_Classrooms : Z;
  Toilet_Deficit : Z
}.

(** Frames that carry a [TotalEnrol] column: the loaded frame and every
    frame made from it. *)
Class EnrolFrame (A : Type) : Type := enrol_column : A -> option Z.

#[export] Instance Row_EnrolFrame : EnrolFrame Row := TotalEnrol.
#[export] Instance SchoolRecord_EnrolFrame : EnrolFrame SchoolRecord :=
  fun s => TotalEnrol (row s).

(** ** Data preprocessing (lines 9-22) *)

(** Line 9, the mask [df["TotalEnrol"].notna() & (df["TotalEnrol"] > 0)]. *)
Definition valid_enrol (e : option Z) : bool :=
  Pandas.notna e && Pandas.gt e 0.

Definition validity_stage {A : Type} `{EnrolFrame A} (df : list A) : list A :=
  filter (fun r => valid_enrol (enrol_column r)) df.

(** Line 14, [df[teacher_columns] = df[teacher_columns].fillna(0)]. *)
Definition fillna_teacher_columns (r : Row) : Row :=
  {| index := index r;
     Name_of_Sc := Name_of_Sc r;
     Province := Province r;
     District := District r;
     Latitude := Latitude r;
     Longitude := Longitude r;
     TotalEnrol := TotalEnrol r;
     TotalGirls := TotalGirls r;
     TotalBoys := TotalBoys r;
     GO_KTSC_M := Pandas.fillna 0 (GO_KTSC_M r);
     authorityM := Pandas.fillna 0 (authorityM r);
     PTA_BOG_M := Pandas.fillna 0 (PTA_BOG_M r);
     OthersM := Pandas.fillna 0 (OthersM r);
     GOK_TSC_F := Pandas.fillna 0 (GOK_TSC_F r);
     authorityF := Pandas.fillna 0 (authorityF r);
     PTA_BOG_F := Pandas.fillna 0 (PTA_BOG_F r);
     OthersF := Pandas.fillna 0 (OthersF r);
     PupilTeach := PupilTeach r;
     No_Classrm := No_Classrm r;
     TotalToile := TotalToile r |}.

(** Line 22, the lambda given to [apply]. *)
Definition toilet_deficit (x : option Z) : Z :=
  if Pandas.isna x || Pandas.le x 0 then 1 else 0.

(** Lines 14-22 on one row.  The script runs each line on a whole column;
    no line looks at another row, so the frame is derived row by row. *)
Definition derive (r0 : Row) : result SchoolRecord :=
  let r := fillna_teacher_columns r0 in
  let male :=
    Pandas.add (Pandas.add (Pandas.add (GO_KTSC_M r) (authorityM r))
                           (PTA_BOG_M r)) (OthersM r) in
  let female :=
    Pandas.add (Pandas.add (Pandas.add (GOK_TSC_F r) (authorityF r))
                           (PTA_BOG_F r)) (OthersF r) in
  let total := Pandas.add male female in
  required <- Pandas.astype_int (Pandas.round (Pandas.truediv (TotalEnrol r) 40)) ;;
  let shortage := Pandas.clip_lower 0 (Pandas.sub (Some required) total) in
  let gap := Pandas.sub (TotalGirls r) (TotalBoys r) in
  classrooms <- Pandas.astype_int (Pandas.fillna 0 (No_Classrm r)) ;;
  Ok {| row := r;
        Male_Teachers := male;
        Female_Teachers := female;
        Total_Teachers_Recalc := total;
        Teachers_Required := required;
        Teacher_Shortage := shortage;
        Gender_Enrol_Gap := gap;
        No_Classrooms := classrooms;
        Toilet_Deficit := toilet_deficit (TotalToile r) |}.

(** Lines 9-22: the frame [df] the rest of the script works on. *)
Definition df (csv : list Row) : result (list SchoolRecord) :=
  mapM derive (validity_stage csv).

(** ** Filtering the dataset (lines 55-59) *)

Definition region_stage (province district : string) (d : list SchoolRecord)
  : list SchoolRecord :=
  let filtered := d in
  let filtered :=
    if String.eqb province "All" then filtered
    else filter (fun s => String.eqb (Province (row s)) province) filtered in
  let filtered :=
    if String.eqb district "All" then filtered
    else filter (fun s => String.eqb (District (row s)) district) filtered in
  filtered.

Definition filtered_df (d : list SchoolRecord) (province district : string)
  : list SchoolRecord :=
  region_stage province district d.

(** The Record Filter of the design: the validity mask of line 9 followed by
    the region masks of lines 56-59, on a frame of derived records. *)
Definition Record_Filter (province district : string) (d : list SchoolRecord)
  : list SchoolRecord :=
  region_stage province district (validity_stage d).

(** ** KPIs (lines 63-65) *)

(** Each metric is [int] of a column sum; the sums are whole numbers. *)

Definition kpi1 (f : list SchoolRecord) : Z :=
  Pandas.sum (map (fun s => TotalEnrol (row s)) f).

Definition kpi2 (f : list SchoolRecord) : Z :=
  Pandas.sum (map Total_Teachers_Recalc f).

Definition kpi3 (f : list SchoolRecord) : Z :=
  Pandas.sum (map Teacher_Shortage f).

(** ** Charts (lines 70-77) *)

Definition by_district (f : list SchoolRecord) : list (string * list SchoolRecord) :=
  Pandas.groupby (fun s => District (row s)) f.

Definition ratio_chart (f : list SchoolRecord) : list (string * option Q) :=
  map (fun kg => (fst kg, Pandas.mean (map (fun s => PupilTeach (row s)) (snd kg))))
      (by_district f).

Definition shortage_chart (f : list SchoolRecord) : list (string * Z) :=
  map (fun kg => (fst kg, Pandas.sum (map Teacher_Shortage (snd kg))))
      (by_district f).

Definition shortage_chart_top10 (f : list SchoolRecord) : list (string * Z) :=
  Pandas.head 10 (Pandas.sort_values_desc snd (shortage_chart f)).

(** ** Map data (lines 83-129) *)

(** The seven columns line 83 selects, with the row label. *)
Module MapData.
Record t : Type := {
  index : nat;
  Latitude : option Q;
  Longitude : option Q;
  Name_of_Sc : option string;
  Teacher_Shortage : option Z;
  Total_Teachers_Recalc : option Z;
  No_Classrooms : Z;
  TotalToile : option Z
}.
End MapData.

(** [filtered_df[[...]]] on one row. *)
Definition select_map_columns (s : SchoolRecord) : MapData.t :=
  {| MapData.index := index (row s);
     MapData.Latitude := Latitude (row s);
     MapData.Longitude := Longitude (row s);
     MapData.Name_of_Sc := Name_of_Sc (row s);
     MapData.Teacher_Shortage := Teacher_Shortage s;
     MapData.Total_Teachers_Recalc := Total_Teachers_Recalc s;
     MapData.No_Classrooms := No_Classrooms s;
     MapData.TotalToile := TotalToile (row s) |}.

(** [DataFrame.dropna()] keeps a row when none of its cells is missing; the
    integer column [No_Classrooms] has no missing cell. *)
Definition complete (m : MapData.t) : bool :=
  Pandas.notna (MapData.Latitude m) &&
  Pandas.notna (MapData.Longitude m) &&
  Pandas.notna (MapData.Name_of_Sc m) &&
  Pandas.notna (MapData.Teacher_Shortage m) &&
  Pandas.notna (MapData.Total_Teachers_Recalc m) &&
  Pandas.notna (MapData.TotalToile m).

Definition dropna (d : list MapData.t) : list MapData.t := filter complete d.

(** Line 83. *)
Definition map_data (f : list SchoolRecord) : list MapData.t :=
  dropna (map select_map_columns f).

(** The categories of [Shortage_Level], in the order of the [labels]
    argument; each label of the script is the name below after a coloured
    square. *)
Inductive Level : Type :=
| No_Shortage
| Low
| Moderate
| High.

Definition bins : list Pandas.edge :=
  [Pandas.Fin (-1); Pandas.Fin 0; Pandas.Fin 19; Pandas.Fin 39; Pandas.Inf].

Definition labels : list Level := [No_Shortage; Low; Moderate; High].

(** Lines 89-93 on one cell. *)
Definition Shortage_Level (shortage : option Z) : option Level :=
  Pandas.cut bins labels shortage.

(** A row of [map_data] after line 89 has added the [Shortage_Level]
    column to it; both figures are drawn from this frame. *)
Record LevelledRow : Type := {
  point : MapData.t;
  level : option Level
}.

Definition add_Shortage_Level (d : list MapData.t) : list LevelledRow :=
  map (fun m => {| point := m;
                   level := Shortage_Level (MapData.Teacher_Shortage m) |}) d.

(** What [px.scatter_mapbox] is given for one marker. *)
Record Marker (C : Type) : Type := {
  source : nat;
  lat : option Q;
  lon : option Q;
  hover_name : option string;
  hover_data : option Z * option Z;
  color : C
}.
Arguments source {C} _.
Arguments lat {C} _.
Arguments lon {C} _.
Arguments hover_name {C} _.
Arguments hover_data {C} _.
Arguments color {C} _.

(** Lines 94-107. *)
Definition fig_shortage (d : list LevelledRow) : list (Marker (option Level)) :=
  map (fun m =>
         {| source := MapData.index (point m);
            lat := MapData.Latitude (point m);
            lon := MapData.Longitude (point m);
            hover_name := MapData.Name_of_Sc (point m);
            hover_data := (MapData.Teacher_Shortage (point m),
                           MapData.Total_Teachers_Recalc (point m));
            color := level m |}) d.

(** Line 114. *)
Definition infra_color (m : LevelledRow) : option Z :=
  Pandas.add (Some (MapData.No_Classrooms (point m))) (MapData.TotalToile (point m)).

(** Lines 115-129. *)
Definition fig_infra (d : list LevelledRow) : list (Marker (option Z)) :=
  map (fun m =>
         {| source := MapData.index (point m);
            lat := MapData.Latitude (point m);
            lon := MapData.Longitude (point m);
            hover_name := MapData.Name_of_Sc (point m);
            hover_data := (Some (MapData.No_Classrooms (point m)),
                           MapData.TotalToile (point m));
            color := infra_color m |}) d.

(** ** The whole script *)

Record Page : Type := {
  metric1 : Z;
  metric2 : Z;
  metric3 : Z;
  chart_ratio : list (string * option Q);
  chart_shortage : list (string * Z);
  map_shortage : list (Marker (option Level));
  map_infra : list (Marker (option Z))
}.

Definition views (f : list SchoolRecord) : Page :=
  let levelled := add_Shortage_Level (map_data f) in
  {| metric1 := kpi1 f;
     metric2 := kpi2 f;
     metric3 := kpi3 f;
     chart_ratio := ratio_chart f;
     chart_shortage := shortage_chart_top10 f;
     map_shortage := fig_shortage levelled;
     map_infra := fig_infra levelled |}.

Definition dashboard (csv : list Row) (province district : string) : result Page :=
  d <- df csv ;;
  Ok (views (filtered_df d province district)).

(** ** Sidebar (lines 30-37) *)

(** [Series.unique()]: the distinct values, in order of first appearance. *)
Fixpoint unique (col : list string) : list string :=
  match col with
  | [] => []
  | x :: col' => x :: filter (fun y => negb (String.eqb x y)) (unique col')
  end.

(** Python's [sorted] on strings: ascending, equal items keep their order. *)
Fixpoint insort (x : string) (l : list string) : list string :=
  match l with
  | [] => [x]
  | y :: l' => if String.ltb x y then x :: y :: l' else y :: insort x l'
  end.

Definition sorted (l : list string) : list string :=
  fold_right insort [] (rev l).

(** Line 30, the [options] of the province select box. *)
Definition province_options (d : list SchoolRecord) : list string :=
  "All"%string :: sorted (unique (map (fun s => Province (row s)) d)).

(** Lines 32-35. *)
Definition district_options (d : list SchoolRecord) (province : string)
  : list string :=
  if negb (String.eqb province "All") then
    sorted (unique (map (fun s => District (row s))
                        (filter (fun s => String.eqb (Province (row s)) province) d)))
  else
    sorted (unique (map (fun s => District (row s)) d)).

(** Line 37, the [options] of the district select box. *)
Definition district_select_options (d : list SchoolRecord) (province : string)
  : list string :=
  "All"%string :: district_options d province.

(** ** Sample data *)

Definition kilimani : Row :=
  {| index := 0%nat; Name_of_Sc := Some "Kilimani"%string;
     Province := "Nairobi"; District := "Westlands";
     Latitude := Some (-(13 # 10))%Q; Longitude := Some (368 # 10)%Q;
     TotalEnrol := Some 400; TotalGirls := Some 210; TotalBoys := Some 190;
     GO_KTSC_M := Some 3; authorityM := None; PTA_BOG_M := None; OthersM := None;
     GOK_TSC_F := Some 4; authorityF := None; PTA_BOG_F := Some 1; OthersF := None;
     PupilTeach := Some (50 # 1)%Q; No_Classrm := Some 8; TotalToile := Some 6 |}.

Definition mwangaza : Row :=
  {| index := 1%nat; Name_of_Sc := Some "Mwangaza"%string;
     Province := "Nairobi"; District := "Westlands";
     Latitude := Some (-(12 # 10))%Q; Longitude := Some (369 # 10)%Q;
     TotalEnrol := Some 100; TotalGirls := Some 40; TotalBoys := Some 60;
     GO_KTSC_M := Some 2; authorityM := Some 0; PTA_BOG_M := Some 0; OthersM := Some 0;
     GOK_TSC_F := Some 3; authorityF := Some 0; PTA_BOG_F := Some 0; OthersF := Some 0;
     PupilTeach := Some (20 # 1)%Q; No_Classrm := Some 4; TotalToile := None |}.

Definition closed_school : Row :=
  {| index := 2%nat; Name_of_Sc := Some "Closed"%string;
     Province := "Coast"; District := "Kilifi";
     Latitude := Some (-(36 # 10))%Q; Longitude := Some (398 # 10)%Q;
     TotalEnrol := Some 0; TotalGirls := Some 0; TotalBoys := Some 0;
     GO_KTSC_M := Some 1; authorityM := None; PTA_BOG_M := None; OthersM := None;
     GOK_TSC_F := Some 1; authorityF := None; PTA_BOG_F := None; OthersF := None;
     PupilTeach := None; No_Classrm := Some 2; TotalToile := Some 1 |}.

Definition unreported : Row :=
  {| index := 3%nat; Name_of_Sc := Some "Unreported"%string;
     Province := "Coast"; District := "Kilifi";
     Latitude := None; Longitude := None;
     TotalEnrol := None; TotalGirls := None; TotalBoys := None;
     GO_KTSC_M := None; authorityM := None; PTA_BOG_M := None; OthersM := None;
     GOK_TSC_F := None; authorityF := None; PTA_BOG_F := None; OthersF := None;
     PupilTeach := None; No_Classrm := None; TotalToile := None |}.

Definition bare : Row :=
  {| index := 4%nat; Name_of_Sc := Some "Bare"%string;
     Province := "Coast"; District := "Kwale";
     Latitude := None; Longitude := Some (394 # 10)%Q;
     TotalEnrol := Some 820; TotalGirls := Some 400; TotalBoys := Some 420;
     GO_KTSC_M := None; authorityM := None; PTA_BOG_M := None; OthersM := None;
     GOK_TSC_F := None; authorityF := None; PTA_BOG_F := None; OthersF := None;
     PupilTeach := None; No_Classrm := None; TotalToile := Some 2 |}.

Definition overstaffed : Row :=
  {| index := 5%nat; Name_of_Sc := Some "Overstaffed"%string;
     Province := "Coast"; District := "Kwale";
     Latitude := Some (-(41 # 10))%Q; Longitude := Some (395 # 10)%Q;
     TotalEnrol := Some 60; TotalGirls := Some 30; TotalBoys := Some 30;
     GO_KTSC_M := Some 4; authorityM := None; PTA_BOG_M := None; OthersM := Some 1;
     GOK_TSC_F := Some 6; authorityF := None; PTA_BOG_F := None; OthersF := Some 1;
     PupilTeach := Some (5 # 1)%Q; No_Classrm := Some 9; TotalToile := Some 12 |}.

Definition sample_csv : list Row :=
  [kilimani; mwangaza; closed_school; unreported; bare; overstaffed].

Definition unwrap {A : Type} (m : result A)
  : match m with Ok _ => A | Raise _ => unit end :=
  match m with
  | Ok a => a
  | Raise _ => tt
  end.

Definition sample_df : list SchoolRecord :=
  Eval vm_compute in unwrap (df sample_csv).

Definition kilimani_record : SchoolRecord :=
  Eval vm_compute in unwrap (derive kilimani).

Definition mwangaza_record : SchoolRecord :=
  Eval vm_compute in unwrap (derive mwangaza).

Definition bare_record : SchoolRecord :=
  Eval vm_compute in unwrap (derive bare).

Definition overstaffed_record : SchoolRecord :=
  Eval vm_compute in unwrap (derive overstaffed).

Definition sample_page : Page :=
  Eval vm_compute in unwrap (dashboard sample_csv "All" "All").


(** A school without teachers, alone in its district, with coordinates,
    name and toilet count. *)
Definition district_school (label : nat) (district : string) (pupils : Z) : Row :=
  {| index := label; Name_of_Sc := Some district;
     Province := "Rift"; District := district;
     Latitude := Some (0 # 1)%Q; Longitude := Some (36 # 1)%Q;
     TotalEnrol := Some pupils; TotalGirls := None; TotalBoys := None;
     GO_KTSC_M := None; authorityM := None; PTA_BOG_M := None; OthersM := None;
     GOK_TSC_F := None; authorityF := None; PTA_BOG_F := None; OthersF := None;
     PupilTeach := None; No_Classrm := Some 1; TotalToile := Some 1 |}.

(** Eleven districts with shortages 1, 2, ..., 11. *)
Definition eleven_csv : list Row :=
  [district_school 0 "D00" 40; district_school 1 "D01" 80;
   district_school 2 "D02" 120; district_school 3 "D03" 160;
   district_school 4 "D04" 200; district_school 5 "D05" 240;
   district_school 6 "D06" 280; district_school 7 "D07" 320;
   district_school 8 "D08" 360; district_school 9 "D09" 400;
   district_school 10 "D10" 440].

Definition eleven_df : list SchoolRecord :=
  Eval vm_compute in unwrap (df eleven_csv).



(** ** The design's vocabulary *)

(** "Null is treated as 0", in the design's words. *)
Definition null_as_zero (x : option Z) : Z :=
  match x with Some v => v | None => 0 end.

Definition male_total (r : Row) : Z :=
  null_as_zero (GO_KTSC_M r) + null_as_zero (authorityM r)
  + null_as_zero (PTA_BOG_M r) + null_as_zero (OthersM r).

Definition female_total (r : Row) : Z :=
  null_as_zero (GOK_TSC_F r) + null_as_zero (authorityF r)
  + null_as_zero (PTA_BOG_F r) + null_as_zero (OthersF r).

(** "Rounded to the nearest integer", a tie going to the even neighbour. *)
Definition nearest_ties_even (x : Q) (t : Z) : Prop :=
  (Qabs (inject_Z t - x) <= 1 # 2)%Q /\
  ((Qabs (inject_Z t - x) == 1 # 2)%Q -> Z.even t = true).

(** All eight teacher cells of a loaded row are missing. *)
Definition teacher_columns_null (r : Row) : Prop :=
  GO_KTSC_M r = None /\ authorityM r = None /\
  PTA_BOG_M r = None /\ OthersM r = None /\
  GOK_TSC_F r = None /\ authorityF r = None /\
  PTA_BOG_F r = None /\ OthersF r = None.

(** The two region masks of lines 56-59 as one mask. *)
Definition region_mask (province district : string) (s : SchoolRecord) : bool :=
  (String.eqb province "All" || String.eqb (Province (row s)) province) &&
  (String.eqb district "All" || String.eqb (District (row s)) district).

(** "The full valid dataset": the loaded rows whose enrolment is present
    and greater than 0, and the three totals computed on them directly. *)
Definition valid_dataset (csv : list Row) : list Row :=
  filter (fun r => match TotalEnrol r with
                   | Some e => 0 <? e
                   | None => false
                   end) csv.

Definition total_of (col : list Z) : Z := fold_right Z.add 0 col.

Definition enrolment_of (r : Row) : Z := null_as_zero (TotalEnrol r).

Definition teachers_of (r : Row) : Z := male_total r + female_total r.

Definition required_of (r : Row) : Z :=
  Pandas.round_half_even (inject_Z (enrolment_of r) / 40).

Definition shortage_of (r : Row) : Z :=
  Z.max 0 (required_of r - teachers_of r).

(** The page with nothing on it: zero KPIs, empty charts, empty maps. *)
Definition empty_page : Page :=
  {| metric1 := 0;
     metric2 := 0;
     metric3 := 0;
     chart_ratio := [];
     chart_shortage := [];
     map_shortage := [];
     map_infra := [] |}.

(** Where a marker is drawn and which school it is. *)
Definition place {C : Type} (m : Marker C)
  : nat * option Q * option Q * option string :=
  (source m, lat m, lon m, hover_name m).

(** A cell that is missing or holds a number from [lo] upwards. *)
Definition at_least (lo : Z) (x : option Z) : Prop :=
  match x with
  | Some v => lo <= v
  | None => True
  end.

(** Strictly ascending order of strings, as Python compares them. *)
Definition string_lt (a b : string) : Prop := String.compare a b = Lt.

(** The schools of one district within a frame, in frame order. *)
Definition of_district (k : string) (f : list SchoolRecord) : list SchoolRecord :=
  filter (fun s => String.eqb (District (row s)) k) f.

(** The rank of a level in the order of the [labels] argument. *)
Definition severity (l : Level) : Z :=
  match l with
  | No_Shortage => 0
  | Low => 1
  | Moderate => 2
  | High => 3
  end.

(** * Properties *)

(** ** The error monad *)

Lemma mapM_Forall2 {A B : Type} (f : A -> result B) (l : list A) (bs : list B) :
  mapM f l = Ok bs -> Forall2 (fun a b => f a = Ok b) l bs.
Proof.
  revert bs. induction l as [|a l IH]; simpl; intros bs H.
  - inversion H. constructor.
  - destruct (f a) as [b|e] eqn:Hfa; simpl in H; [|discriminate].
    destruct (mapM f l) as [bs'|e] eqn:Hl; simpl in H; [|discriminate].
    inversion H; subst. constructor; auto.
Qed.

Lemma mapM_total {A B : Type} (f : A -> result B) (l : list A) :
  (forall a, In a l -> exists b, f a = Ok b) -> exists bs, mapM f l = Ok bs.
Proof.
  induction l as [|a l IH]; simpl; intros H.
  - eexists; reflexivity.
  - destruct (H a (or_introl eq_refl)) as [b Hb].
    destruct IH as [bs Hbs]; [intros; apply H; auto|].
    exists (b :: bs). rewrite Hb, Hbs. reflexivity.
Qed.

Lemma Forall2_In_r {A B : Type} (R : A -> B -> Prop) (l : list A) (l' : list B) (b : B) :
  Forall2 R l l' -> In b l' -> exists a, In a l /\ R a b.
Proof.
  induction 1 as [|x y l l' Hxy _ IH]; simpl; intros Hin; [contradiction|].
  destruct Hin as [->|Hin].
  - exists x; auto.
  - destruct (IH Hin) as [a [Ha HR]]. exists a; auto.
Qed.

Lemma Forall2_In_l {A B : Type} (R : A -> B -> Prop) (l : list A) (l' : list B) (a : A) :
  Forall2 R l l' -> In a l -> exists b, In b l' /\ R a b.
Proof.
  induction 1 as [|x y l l' Hxy _ IH]; simpl; intros Hin; [contradiction|].
  destruct Hin as [->|Hin].
  - exists y; auto.
  - destruct (IH Hin) as [b [Hb HR]]. exists b; auto.
Qed.

(** ** Field Deriver *)

Lemma fillna_null_as_zero (x : option Z) :
  Pandas.fillna 0 x = Some (null_as_zero x).
Proof. destruct x; reflexivity. Qed.

Lemma valid_enrol_spec (e : option Z) :
  valid_enrol e = true <-> exists v, e = Some v /\ 0 < v.
Proof.
  unfold valid_enrol. destruct e as [v|]; simpl.
  - rewrite Z.ltb_lt. split; [intros H; exists v; auto|].
    intros [v' [Hv Hlt]]. inversion Hv; subst; assumption.
  - split; [discriminate|]. intros [v [Hv _]]; discriminate.
Qed.

Lemma clip_lower_max (lo : Z) (v : Z) :
  Pandas.clip_lower lo (Some v) = Some (Z.max lo v).
Proof.
  unfold Pandas.clip_lower; simpl. f_equal.
  destruct (Z.ltb_spec v lo); lia.
Qed.

(** What [derive] returns, column by column. *)
Lemma derive_Ok (r : Row) (s : SchoolRecord) :
  derive r = Ok s ->
  exists e,
    TotalEnrol r = Some e /\
    row s = fillna_teacher_columns r /\
    Male_Teachers s = Some (male_total r) /\
    Female_Teachers s = Some (female_total r) /\
    Total_Teachers_Recalc s = Some (male_total r + female_total r) /\
    Teachers_Required s = Pandas.round_half_even (inject_Z e / 40) /\
    Teacher_Shortage s =
      Some (Z.max 0 (Teachers_Required s - (male_total r + female_total r))).
Proof.
  unfold derive. simpl.
  destruct (TotalEnrol r) as [e|] eqn:He; simpl; [|discriminate].
  rewrite !fillna_null_as_zero. simpl.
  intros H. inversion H; subst; clear H. simpl.
  exists e. repeat split; try reflexivity.
  f_equal. unfold male_total, female_total.
  match goal with |- context [?a <? 0] => destruct (Z.ltb_spec a 0) end; lia.
Qed.

Lemma derive_total (r : Row) :
  Pandas.notna (TotalEnrol r) = true -> exists s, derive r = Ok s.
Proof.
  unfold derive. simpl.
  destruct (TotalEnrol r) as [e|]; simpl; [|discriminate].
  rewrite !fillna_null_as_zero. simpl. intros _. eexists; reflexivity.
Qed.

(** Line 9 protects line 18: preprocessing never raises. *)
Lemma df_total (csv : list Row) : exists d, df csv = Ok d.
Proof.
  unfold df. apply mapM_total. intros r Hr.
  apply filter_In in Hr. destruct Hr as [_ Hv].
  apply derive_total. unfold valid_enrol in Hv.
  apply andb_true_iff in Hv. apply Hv.
Qed.

Lemma df_rows (csv : list Row) (d : list SchoolRecord) :
  df csv = Ok d -> Forall2 (fun r s => derive r = Ok s) (validity_stage csv) d.
Proof. apply mapM_Forall2. Qed.

Lemma df_In (csv : list Row) (d : list SchoolRecord) (s : SchoolRecord) :
  df csv = Ok d -> In s d ->
  exists r, In r csv /\ valid_enrol (TotalEnrol r) = true /\ derive r = Ok s.
Proof.
  intros Hd Hs. apply df_rows in Hd.
  destruct (Forall2_In_r _ _ _ _ Hd Hs) as [r [Hr Hrs]].
  apply filter_In in Hr. destruct Hr as [Hr Hv].
  exists r. auto.
Qed.

Lemma df_derived (csv : list Row) (d : list SchoolRecord) (r : Row) :
  df csv = Ok d -> In r csv -> valid_enrol (TotalEnrol r) = true ->
  exists s, In s d /\ derive r = Ok s.
Proof.
  intros Hd Hr Hv. apply df_rows in Hd.
  apply (Forall2_In_l _ _ _ r Hd).
  apply filter_In. auto.
Qed.

(** *** Rounding *)

Lemma round_half_even_cases (x : Q) :
  Pandas.round_half_even x = Qfloor x \/ Pandas.round_half_even x = Qfloor x + 1.
Proof.
  unfold Pandas.round_half_even.
  destruct (x - inject_Z (Qfloor x) ?= 1 # 2)%Q; auto.
  destruct (Z.even (Qfloor x)); auto.
Qed.

Lemma round_half_even_nearest (x : Q) :
  nearest_ties_even x (Pandas.round_half_even x).
Proof.
  unfold nearest_ties_even, Pandas.round_half_even.
  pose proof (Qfloor_le x) as Hlo.
  pose proof (Qlt_floor x) as Hhi.
  rewrite inject_Z_plus in Hhi.
  change (inject_Z 1) with 1%Q in Hhi.
  set (f := Qfloor x) in *.
  destruct (Qcompare_spec (x - inject_Z f) (1 # 2)) as [Heq|Hlt|Hgt].
  - destruct (Z.even f) eqn:Hev.
    + split; [|auto]. apply Qabs_case; intros; lra.
    + split.
      * rewrite inject_Z_plus. change (inject_Z 1) with 1%Q.
        apply Qabs_case; intros; lra.
      * intros _. rewrite Z.add_1_r, Z.even_succ, <- Z.negb_even, Hev.
        reflexivity.
  - split.
    + apply Qabs_case; intros; lra.
    + apply Qabs_case; intros; lra.
  - rewrite inject_Z_plus. change (inject_Z 1) with 1%Q. split.
    + apply Qabs_case; intros; lra.
    + apply Qabs_case; intros; lra.
Qed.

Lemma Qabs_half_bounds (a : Q) :
  (Qabs a <= 1 # 2)%Q -> (- (1 # 2) <= a /\ a <= 1 # 2)%Q.
Proof. apply Qabs_case; intros; split; lra. Qed.

Lemma nearest_ties_even_le (x : Q) (t1 t2 : Z) :
  nearest_ties_even x t1 -> nearest_ties_even x t2 -> t1 <= t2.
Proof.
  intros [H1 E1] [H2 E2].
  apply Qabs_half_bounds in H1, H2.
  assert (Hle : (inject_Z t1 <= inject_Z (t2 + 1))%Q).
  { rewrite inject_Z_plus. change (inject_Z 1) with 1%Q. lra. }
  rewrite <- Zle_Qle in Hle.
  destruct (Z.eq_dec t1 (t2 + 1)) as [Heq|Hne]; [|lia].
  exfalso.
  assert (Hq : (inject_Z t1 == inject_Z t2 + 1)%Q).
  { rewrite Heq, inject_Z_plus. reflexivity. }
  assert (T1 : (Qabs (inject_Z t1 - x) == 1 # 2)%Q).
  { apply Qabs_case; intros; lra. }
  assert (T2 : (Qabs (inject_Z t2 - x) == 1 # 2)%Q).
  { apply Qabs_case; intros; lra. }
  apply E1 in T1. apply E2 in T2.
  rewrite Heq, Z.add_1_r, Z.even_succ, <- Z.negb_even, T2 in T1.
  discriminate.
Qed.

(** The rounding mode leaves no choice: one integer fits. *)
Lemma nearest_ties_even_unique (x : Q) (t1 t2 : Z) :
  nearest_ties_even x t1 -> nearest_ties_even x t2 -> t1 = t2.
Proof.
  intros H1 H2.
  pose proof (nearest_ties_even_le x t1 t2 H1 H2).
  pose proof (nearest_ties_even_le x t2 t1 H2 H1).
  lia.
Qed.

Lemma round_half_even_nonneg (x : Q) :
  (0 <= x)%Q -> 0 <= Pandas.round_half_even x.
Proof.
  intros Hx. apply Qfloor_resp_le in Hx.
  change (Qfloor 0) with 0 in Hx.
  destruct (round_half_even_cases x) as [-> | ->]; lia.
Qed.

Lemma enrol_ratio_nonneg (e : Z) : 0 < e -> (0 <= inject_Z e / 40)%Q.
Proof.
  intros He. unfold Qdiv, Qmult, Qinv, Qle, inject_Z; simpl. lia.
Qed.

(** A tie goes down to 2 at 100 pupils and up to 2 at 60 pupils. *)
Example round_half_even_ties :
  Pandas.round_half_even (inject_Z 100 / 40) = 2 /\
  Pandas.round_half_even (inject_Z 60 / 40) = 2 /\
  Pandas.round_half_even (inject_Z 20 / 40) = 0.
Proof. repeat split; reflexivity. Qed.

(** *** The derived columns *)

(** The two schools of the design's scenario, 400 pupils with 8 teachers
    and 100 pupils with 5 teachers in one district: 10 and 2 teachers are
    required (100 / 40 is a tie and goes to the even 2), the shortages are 2
    and 0, the shortage KPI is 2 and the mean ratio is 70/2. *)
Example two_school_scenario :
  exists d,
    df [kilimani; mwangaza] = Ok d /\
    map Teachers_Required d = [10; 2] /\
    map Teacher_Shortage d = [Some 2; Some 0] /\
    kpi3 (filtered_df d "All" "All") = 2 /\
    ratio_chart (filtered_df d "All" "All") = [("Westlands"%string, Some (70 # 2)%Q)].
Proof. eexists. repeat split; reflexivity. Qed.

(** C1.  Every record of the preprocessed frame has a total teacher count
    and a teacher shortage, the shortage is max(0, teachers required - total
    teacher count), and it is never negative. *)
Theorem teacher_shortage_clipped (csv : list Row) (d : list SchoolRecord)
        (s : SchoolRecord) :
  df csv = Ok d -> In s d ->
  exists total shortage,
    Total_Teachers_Recalc s = Some total /\
    Teacher_Shortage s = Some shortage /\
    shortage = Z.max 0 (Teachers_Required s - total) /\
    0 <= shortage.
Proof.
  intros Hd Hs.
  destruct (df_In csv d s Hd Hs) as [r [_ [_ Hr]]].
  destruct (derive_Ok r s Hr) as [e [_ [_ [_ [_ [Ht [_ Hsh]]]]]]].
  eexists; eexists. repeat split; eauto. lia.
Qed.

(** The school with 12 teachers where 2 are required has shortage 0. *)
Lemma teacher_shortage_clipped_witness :
  df sample_csv = Ok sample_df /\
  In overstaffed_record sample_df /\
  exists total shortage,
    Total_Teachers_Recalc overstaffed_record = Some total /\
    Teacher_Shortage overstaffed_record = Some shortage /\
    shortage = Z.max 0 (Teachers_Required overstaffed_record - total) /\
    0 <= shortage.
Proof.
  assert (Hd : df sample_csv = Ok sample_df) by reflexivity.
  assert (Hs : In overstaffed_record sample_df) by (simpl; tauto).
  split; [exact Hd|]. split; [exact Hs|].
  exact (teacher_shortage_clipped sample_csv sample_df overstaffed_record Hd Hs).
Defined.

(** C6.  Every record of the preprocessed frame comes from a loaded row;
    its male total is the sum of the four male columns of that row and its
    female total the sum of the four female columns, a missing cell counting
    as 0, and its total teacher count is exactly the sum of the two. *)
Theorem total_teachers_male_plus_female (csv : list Row) (d : list SchoolRecord)
        (s : SchoolRecord) :
  df csv = Ok d -> In s d ->
  exists r male female,
    In r csv /\ derive r = Ok s /\
    male = male_total r /\
    female = female_total r /\
    Male_Teachers s = Some male /\
    Female_Teachers s = Some female /\
    Total_Teachers_Recalc s = Some (male + female).
Proof.
  intros Hd Hs.
  destruct (df_In csv d s Hd Hs) as [r [Hin [_ Hr]]].
  destruct (derive_Ok r s Hr) as [e [_ [_ [Hm [Hf [Ht _]]]]]].
  exists r, (male_total r), (female_total r). repeat split; assumption.
Qed.

Lemma total_teachers_male_plus_female_witness :
  df sample_csv = Ok sample_df /\
  In kilimani_record sample_df /\
  exists r male female,
    In r sample_csv /\ derive r = Ok kilimani_record /\
    male = male_total r /\
    female = female_total r /\
    Male_Teachers kilimani_record = Some male /\
    Female_Teachers kilimani_record = Some female /\
    Total_Teachers_Recalc kilimani_record = Some (male + female).
Proof.
  assert (Hd : df sample_csv = Ok sample_df) by reflexivity.
  assert (Hs : In kilimani_record sample_df) by (simpl; tauto).
  split; [exact Hd|]. split; [exact Hs|].
  exact (total_teachers_male_plus_female sample_csv sample_df kilimani_record Hd Hs).
Defined.


(** C5.  A loaded row that passes line 9 and has all eight teacher cells
    missing is derived into a record with male total 0, female total 0,
    total teacher count 0 and teacher shortage equal to teachers
    required. *)
Theorem all_null_teacher_columns (csv : list Row) (d : list SchoolRecord)
        (r : Row) :
  df csv = Ok d -> In r csv -> valid_enrol (TotalEnrol r) = true ->
  teacher_columns_null r ->
  exists s,
    In s d /\ derive r = Ok s /\
    Male_Teachers s = Some 0 /\
    Female_Teachers s = Some 0 /\
    Total_Teachers_Recalc s = Some 0 /\
    Teacher_Shortage s = Some (Teachers_Required s).
Proof.
  intros Hd Hr Hv Hnull.
  destruct (df_derived csv d r Hd Hr Hv) as [s [Hs Hrs]].
  destruct (derive_Ok r s Hrs) as [e [He [_ [Hm [Hf [Ht [Hreq Hsh]]]]]]].
  assert (M0 : male_total r = 0).
  { unfold male_total. destruct Hnull as (-> & -> & -> & -> & _). reflexivity. }
  assert (F0 : female_total r = 0).
  { unfold female_total.
    destruct Hnull as (_ & _ & _ & _ & -> & -> & -> & ->). reflexivity. }
  rewrite M0 in *. rewrite F0 in *.
  apply valid_enrol_spec in Hv. destruct Hv as [v [Hv Hpos]].
  rewrite He in Hv; inversion Hv; subst v.
  assert (0 <= Teachers_Required s).
  { rewrite Hreq. apply round_half_even_nonneg, enrol_ratio_nonneg, Hpos. }
  exists s. repeat split; try assumption.
  rewrite Hsh. f_equal. lia.
Qed.

Lemma all_null_teacher_columns_witness :
  df sample_csv = Ok sample_df /\
  In bare sample_csv /\
  valid_enrol (TotalEnrol bare) = true /\
  teacher_columns_null bare /\
  exists s,
    In s sample_df /\ derive bare = Ok s /\
    Male_Teachers s = Some 0 /\
    Female_Teachers s = Some 0 /\
    Total_Teachers_Recalc s = Some 0 /\
    Teacher_Shortage s = Some (Teachers_Required s).
Proof.
  assert (Hd : df sample_csv = Ok sample_df) by reflexivity.
  assert (Hr : In bare sample_csv) by (simpl; tauto).
  assert (Hv : valid_enrol (TotalEnrol bare) = true) by reflexivity.
  assert (Hn : teacher_columns_null bare) by (repeat split; reflexivity).
  repeat (split; [assumption|]).
  exact (all_null_teacher_columns sample_csv sample_df bare Hd Hr Hv Hn).
Defined.

(** C9.  For every record of the preprocessed frame the enrolment is
    present, teachers required is the enrolment divided by 40 and rounded to
    the nearest integer with a tie going to the even neighbour, no other
    integer is that rounding, and the value is not negative. *)
Theorem teachers_required_rounding (csv : list Row) (d : list SchoolRecord)
        (s : SchoolRecord) :
  df csv = Ok d -> In s d ->
  exists e,
    TotalEnrol (row s) = Some e /\
    Teachers_Required s = Pandas.round_half_even (inject_Z e / 40) /\
    nearest_ties_even (inject_Z e / 40) (Teachers_Required s) /\
    (forall t, nearest_ties_even (inject_Z e / 40) t -> t = Teachers_Required s) /\
    0 <= Teachers_Required s.
Proof.
  intros Hd Hs.
  destruct (df_In csv d s Hd Hs) as [r [_ [Hv Hr]]].
  destruct (derive_Ok r s Hr) as [e [He [Hrow [_ [_ [_ [Hreq _]]]]]]].
  apply valid_enrol_spec in Hv. destruct Hv as [v [Hv Hpos]].
  rewrite He in Hv; inversion Hv; subst v.
  exists e. rewrite Hrow, Hreq. simpl. repeat split.
  - exact He.
  - apply round_half_even_nearest.
  - apply round_half_even_nearest.
  - intros t Ht. apply (nearest_ties_even_unique (inject_Z e / 40)); auto.
    apply round_half_even_nearest.
  - apply round_half_even_nonneg, enrol_ratio_nonneg, Hpos.
Qed.

(** 100 pupils: 100 / 40 is a tie between 2 and 3 and 2 is required. *)
Lemma teachers_required_rounding_witness :
  df sample_csv = Ok sample_df /\
  In mwangaza_record sample_df /\
  exists e,
    TotalEnrol (row mwangaza_record) = Some e /\
    Teachers_Required mwangaza_record = Pandas.round_half_even (inject_Z e / 40) /\
    nearest_ties_even (inject_Z e / 40) (Teachers_Required mwangaza_record) /\
    (forall t, nearest_ties_even (inject_Z e / 40) t ->
               t = Teachers_Required mwangaza_record) /\
    0 <= Teachers_Required mwangaza_record.
Proof.
  assert (Hd : df sample_csv = Ok sample_df) by reflexivity.
  assert (Hs : In mwangaza_record sample_df) by (simpl; tauto).
  split; [exact Hd|]. split; [exact Hs|].
  exact (teachers_required_rounding sample_csv sample_df mwangaza_record Hd Hs).
Defined.

(** ** Record Filter *)

Lemma filter_filter {A : Type} (f g : A -> bool) (l : list A) :
  filter f (filter g l) = filter (fun x => g x && f x) l.
Proof.
  induction l as [|a l IH]; simpl; [reflexivity|].
  destruct (g a); simpl; [destruct (f a)|]; rewrite IH; reflexivity.
Qed.

Lemma filter_true {A : Type} (l : list A) : filter (fun _ => true) l = l.
Proof. induction l as [|a l IH]; simpl; [|rewrite IH]; reflexivity. Qed.

Lemma region_stage_mask (province district : string) (d : list SchoolRecord) :
  region_stage province district d = filter (region_mask province district) d.
Proof.
  unfold region_stage, region_mask.
  destruct (String.eqb province "All"), (String.eqb district "All"); simpl.
  - symmetry. apply filter_true.
  - apply filter_ext. reflexivity.
  - apply filter_ext. intros s. rewrite andb_true_r. reflexivity.
  - apply filter_filter.
Qed.

Lemma Record_Filter_mask (province district : string) (d : list SchoolRecord) :
  Record_Filter province district d =
  filter (fun s => valid_enrol (TotalEnrol (row s)) && region_mask province district s) d.
Proof.
  unfold Record_Filter, validity_stage. rewrite region_stage_mask.
  apply filter_filter.
Qed.

Lemma filtered_df_In (d : list SchoolRecord) (province district : string)
      (s : SchoolRecord) :
  In s (filtered_df d province district) -> In s d.
Proof.
  unfold filtered_df. rewrite region_stage_mask. intros H.
  apply filter_In in H. apply H.
Qed.

Lemma filtered_df_All (d : list SchoolRecord) : filtered_df d "All" "All" = d.
Proof. reflexivity. Qed.

(** The rows of [df] pass the mask of line 9 again. *)
Lemma df_valid (csv : list Row) (d : list SchoolRecord) :
  df csv = Ok d -> validity_stage d = d.
Proof.
  intros Hd. unfold validity_stage.
  apply forallb_filter_id. apply forallb_forall. intros s Hs.
  destruct (df_In csv d s Hd Hs) as [r [_ [Hv Hr]]].
  destruct (derive_Ok r s Hr) as [e [_ [Hrow _]]].
  unfold enrol_column, SchoolRecord_EnrolFrame. rewrite Hrow. exact Hv.
Qed.

(** What the script shows is a fixed point of the Record Filter. *)
Lemma filtered_df_fixed (csv : list Row) (d : list SchoolRecord)
      (province district : string) :
  df csv = Ok d ->
  filtered_df d province district = Record_Filter province district d /\
  Record_Filter province district (filtered_df d province district) =
  filtered_df d province district.
Proof.
  intros Hd. unfold filtered_df, Record_Filter.
  rewrite (df_valid csv d Hd). split; [reflexivity|].
  rewrite !region_stage_mask. unfold validity_stage.
  rewrite !filter_filter. apply filter_ext_in. intros s Hs.
  destruct (df_In csv d s Hd Hs) as [r [_ [Hv Hr]]].
  destruct (derive_Ok r s Hr) as [e [_ [Hrow _]]].
  unfold enrol_column, SchoolRecord_EnrolFrame. rewrite Hrow.
  change (TotalEnrol (fillna_teacher_columns r)) with (TotalEnrol r).
  rewrite Hv. destruct (region_mask province district s); reflexivity.
Qed.

(** C7.  For every frame of school records and every pair of selectors,
    running the Record Filter (the validity mask, then the region masks) on
    its own output returns that output unchanged. *)
Theorem Record_Filter_idempotent (province district : string)
        (d : list SchoolRecord) :
  Record_Filter province district (Record_Filter province district d) =
  Record_Filter province district d.
Proof.
  rewrite !Record_Filter_mask, filter_filter.
  apply filter_ext. intros s.
  destruct (valid_enrol (TotalEnrol (row s)) && region_mask province district s);
    reflexivity.
Qed.

Lemma valid_dataset_validity_stage (csv : list Row) :
  valid_dataset csv = validity_stage csv.
Proof.
  unfold valid_dataset, validity_stage. apply filter_ext. intros r.
  unfold enrol_column, Row_EnrolFrame, valid_enrol.
  destruct (TotalEnrol r); reflexivity.
Qed.

Lemma kpis_direct (rows : list Row) (d : list SchoolRecord) :
  Forall2 (fun r s => derive r = Ok s) rows d ->
  kpi1 d = total_of (map enrolment_of rows) /\
  kpi2 d = total_of (map teachers_of rows) /\
  kpi3 d = total_of (map shortage_of rows).
Proof.
  induction 1 as [|r s rows d Hrs _ IH]; [repeat split; reflexivity|].
  destruct IH as [IH1 [IH2 IH3]].
  destruct (derive_Ok r s Hrs) as [e [He [Hrow [_ [_ [Ht [Hreq Hsh]]]]]]].
  unfold kpi1, kpi2, kpi3 in *. simpl.
  rewrite Hrow, Ht, Hsh, Hreq. simpl. rewrite He, IH1, IH2, IH3.
  unfold shortage_of, required_of, teachers_of, enrolment_of.
  rewrite He. simpl. repeat split; reflexivity.
Qed.

(** C8.  With both selectors at "All" the filtered frame is the whole
    preprocessed frame, and the three KPI totals are the totals of
    enrolment, of teachers and of shortage taken directly over the loaded
    rows whose enrolment is present and greater than 0. *)
Theorem kpis_of_All_All (csv : list Row) (d : list SchoolRecord) :
  df csv = Ok d ->
  filtered_df d "All" "All" = d /\
  kpi1 (filtered_df d "All" "All") = total_of (map enrolment_of (valid_dataset csv)) /\
  kpi2 (filtered_df d "All" "All") = total_of (map teachers_of (valid_dataset csv)) /\
  kpi3 (filtered_df d "All" "All") = total_of (map shortage_of (valid_dataset csv)).
Proof.
  intros Hd. rewrite filtered_df_All, valid_dataset_validity_stage.
  split; [reflexivity|]. apply kpis_direct, df_rows, Hd.
Qed.

Lemma kpis_of_All_All_witness :
  df sample_csv = Ok sample_df /\
  filtered_df sample_df "All" "All" = sample_df /\
  kpi1 (filtered_df sample_df "All" "All") =
    total_of (map enrolment_of (valid_dataset sample_csv)) /\
  kpi2 (filtered_df sample_df "All" "All") =
    total_of (map teachers_of (valid_dataset sample_csv)) /\
  kpi3 (filtered_df sample_df "All" "All") =
    total_of (map shortage_of (valid_dataset sample_csv)).
Proof.
  assert (Hd : df sample_csv = Ok sample_df) by reflexivity.
  split; [exact Hd|].
  exact (kpis_of_All_All sample_csv sample_df Hd).
Defined.

(** ** Aggregator *)

Lemma sum_app (l1 l2 : list (option Z)) :
  Pandas.sum (l1 ++ l2) = Pandas.sum l1 + Pandas.sum l2.
Proof.
  induction l1 as [|[v|] l1 IH]; simpl; rewrite ?IH; lia.
Qed.


Lemma group_insert_new {A : Type} (k : string) (a : A) (gs : list (string * list A)) :
  exists g, In (k, g) (Pandas.group_insert k a gs) /\ In a g.
Proof.
  induction gs as [|[k' g'] gs IH]; simpl.
  - exists [a]. simpl; auto.
  - destruct (String.compare k k') eqn:Hc.
    + apply String.compare_eq_iff in Hc. subst k'.
      exists (a :: g'). simpl; auto.
    + exists [a]. simpl; auto.
    + destruct IH as [g [Hg Ha]]. exists g. simpl; auto.
Qed.

Lemma group_insert_old {A : Type} (k : string) (a : A) (gs : list (string * list A))
      (k0 : string) (g0 : list A) (a0 : A) :
  In (k0, g0) gs -> In a0 g0 ->
  exists g, In (k0, g) (Pandas.group_insert k a gs) /\ In a0 g.
Proof.
  induction gs as [|[k' g'] gs IH]; simpl; intros Hin Ha0; [contradiction|].
  destruct (String.compare k k') eqn:Hc.
  - destruct Hin as [Heq|Hin].
    + inversion Heq; subst. exists (a :: g0). simpl; auto.
    + exists g0. simpl; auto.
  - exists g0. simpl; auto.
  - destruct Hin as [Heq|Hin].
    + inversion Heq; subst. exists g0. simpl; auto.
    + destruct (IH Hin Ha0) as [g [Hg Ha]]. exists g. simpl; auto.
Qed.

(** Every row of a frame sits in the group of its key. *)
Lemma groupby_In {A : Type} (key : A -> string) (l : list A) (a : A) :
  In a l -> exists g, In (key a, g) (Pandas.groupby key l) /\ In a g.
Proof.
  unfold Pandas.groupby.
  induction l as [|b l IH]; simpl; intros Hin; [contradiction|].
  destruct Hin as [->|Hin].
  - apply group_insert_new.
  - destruct (IH Hin) as [g [Hg Ha]].
    apply (group_insert_old _ _ _ _ g); assumption.
Qed.

(** [sort_values] rearranges the rows and leaves them in descending
    order. *)
Lemma insert_desc_Permutation {A : Type} (val : A -> Z) (a : A) (l : list A) :
  Permutation (a :: l) (Pandas.insert_desc val a l).
Proof.
  induction l as [|b l IH]; simpl; [apply Permutation_refl|].
  destruct (val b <=? val a); [apply Permutation_refl|].
  eapply perm_trans; [apply perm_swap|]. apply perm_skip, IH.
Qed.

Lemma sort_values_desc_Permutation {A : Type} (val : A -> Z) (l : list A) :
  Permutation l (Pandas.sort_values_desc val l).
Proof.
  unfold Pandas.sort_values_desc.
  induction l as [|a l IH]; simpl; [constructor|].
  eapply perm_trans; [apply perm_skip, IH|apply insert_desc_Permutation].
Qed.

Lemma insert_desc_Sorted {A : Type} (val : A -> Z) (a : A) (l : list A) :
  Sorted (fun x y => val y <= val x) l ->
  Sorted (fun x y => val y <= val x) (Pandas.insert_desc val a l).
Proof.
  induction 1 as [|b l Hl IH Hb]; simpl; [repeat constructor|].
  destruct (Z.leb_spec (val b) (val a)) as [Hle|Hgt].
  - constructor; [constructor; assumption|constructor; exact Hle].
  - constructor; [exact IH|].
    destruct l as [|c l]; simpl.
    + constructor. lia.
    + inversion Hb; subst.
      destruct (val c <=? val a); constructor; lia.
Qed.

Lemma sort_values_desc_Sorted {A : Type} (val : A -> Z) (l : list A) :
  Sorted (fun x y => val y <= val x) (Pandas.sort_values_desc val l).
Proof.
  unfold Pandas.sort_values_desc.
  induction l as [|a l IH]; simpl; [constructor|].
  apply insert_desc_Sorted, IH.
Qed.

(** ** Geo Classifier *)

Lemma notna_true {A : Type} (x : option A) : Pandas.notna x = true <-> x <> None.
Proof.
  destruct x; simpl; split; intros H; try reflexivity; try discriminate.
  contradiction H; reflexivity.
Qed.

(** [Shortage_Level] bin by bin. *)
Lemma Shortage_Level_bins (s : Z) :
  Shortage_Level (Some s) =
  if s <=? -1 then None
  else if s <=? 0 then Some No_Shortage
  else if s <=? 19 then Some Low
  else if s <=? 39 then Some Moderate
  else Some High.
Proof.
  unfold Shortage_Level, Pandas.cut, bins, labels. simpl.
  repeat match goal with
         | |- context [?a <? ?b] => destruct (Z.ltb_spec a b)
         | |- context [?a <=? ?b] => destruct (Z.leb_spec a b)
         end; simpl; try reflexivity; lia.
Qed.

(** C3.  Every shortage from 0 upwards gets exactly one level: 0 is "No
    Shortage", 1 to 19 is "Low", 20 to 39 is "Moderate" and 40 or more is
    "High"; no shortage gets two levels and none is left without one. *)
Theorem Shortage_Level_partition (s : Z) :
  0 <= s ->
  exists l,
    Shortage_Level (Some s) = Some l /\
    (l = No_Shortage <-> s = 0) /\
    (l = Low <-> 1 <= s <= 19) /\
    (l = Moderate <-> 20 <= s <= 39) /\
    (l = High <-> 40 <= s).
Proof.
  intros Hs. rewrite Shortage_Level_bins.
  destruct (Z.leb_spec s (-1)); [lia|].
  destruct (Z.leb_spec s 0);
    [exists No_Shortage; repeat split; intros; try discriminate; try lia|].
  destruct (Z.leb_spec s 19);
    [exists Low; repeat split; intros; try discriminate; try lia|].
  destruct (Z.leb_spec s 39);
    [exists Moderate; repeat split; intros; try discriminate; try lia|].
  exists High; repeat split; intros; try discriminate; try lia.
Qed.

Lemma Shortage_Level_partition_witness :
  0 <= 19 /\
  exists l,
    Shortage_Level (Some 19) = Some l /\
    (l = No_Shortage <-> 19 = 0) /\
    (l = Low <-> 1 <= 19 <= 19) /\
    (l = Moderate <-> 20 <= 19 <= 39) /\
    (l = High <-> 40 <= 19).
Proof.
  assert (H : 0 <= 19) by lia.
  split; [exact H|]. exact (Shortage_Level_partition 19 H).
Defined.

(** The five boundary values of the design. *)
Example Shortage_Level_boundaries :
  map (fun s => Shortage_Level (Some s)) [0; 1; 19; 20; 39; 40] =
  [Some No_Shortage; Some Low; Some Low; Some Moderate; Some Moderate; Some High].
Proof. reflexivity. Qed.

(** The three cells the KPIs add up are present in every derived record. *)
Lemma derived_present (csv : list Row) (d : list SchoolRecord) (s : SchoolRecord) :
  df csv = Ok d -> In s d ->
  exists e t sh,
    TotalEnrol (row s) = Some e /\
    Total_Teachers_Recalc s = Some t /\
    Teacher_Shortage s = Some sh /\
    0 <= sh.
Proof.
  intros Hd Hs.
  destruct (df_In csv d s Hd Hs) as [r [_ [_ Hr]]].
  destruct (derive_Ok r s Hr) as [e [He [Hrow [_ [_ [Ht [_ Hsh]]]]]]].
  exists e. eexists. eexists. rewrite Hrow. simpl.
  repeat split; eauto. lia.
Qed.

Lemma complete_select (s : SchoolRecord) :
  Total_Teachers_Recalc s <> None -> Teacher_Shortage s <> None ->
  (complete (select_map_columns s) = true <->
   Latitude (row s) <> None /\ Longitude (row s) <> None /\
   Name_of_Sc (row s) <> None /\ TotalToile (row s) <> None).
Proof.
  intros Ht Hsh. unfold complete, select_map_columns. simpl.
  rewrite !andb_true_iff, !notna_true. tauto.
Qed.

Lemma map_data_In (f : list SchoolRecord) (p : MapData.t) :
  In p (map_data f) <->
  (exists s, In s f /\ p = select_map_columns s) /\ complete p = true.
Proof.
  unfold map_data, dropna. rewrite filter_In, in_map_iff.
  split; intros [[s Hs] Hc]; (split; [exists s|exact Hc]);
    destruct Hs; auto.
Qed.

(** ** The whole script *)

Lemma dashboard_Ok (csv : list Row) (province district : string) (page : Page) :
  dashboard csv province district = Ok page ->
  exists d, df csv = Ok d /\ page = views (filtered_df d province district).
Proof.
  unfold dashboard. destruct (df csv) as [d|e]; simpl; [|discriminate].
  intros H. inversion H. exists d. auto.
Qed.

(** No selection and no loaded frame makes the script raise. *)
Lemma dashboard_total (csv : list Row) (province district : string) :
  exists page, dashboard csv province district = Ok page.
Proof.
  unfold dashboard. destruct (df_total csv) as [d ->]. simpl.
  eexists; reflexivity.
Qed.

(** C4.  When the selection leaves no record, the script still returns a
    page: the three KPIs are 0, the two charts by district are empty (the
    shortage chart before and after the top-10 cut), the frame of map
    points is empty and so are both maps. *)
Theorem empty_filter_result (csv : list Row) (d : list SchoolRecord)
        (province district : string) :
  df csv = Ok d -> filtered_df d province district = [] ->
  dashboard csv province district = Ok empty_page /\
  ratio_chart (filtered_df d province district) = [] /\
  shortage_chart (filtered_df d province district) = [] /\
  map_data (filtered_df d province district) = [].
Proof.
  intros Hd Hf. unfold dashboard. rewrite Hd. simpl. rewrite Hf.
  repeat split; reflexivity.
Qed.

(** No loaded school is in a province called "Rift". *)
Lemma empty_filter_result_witness :
  df sample_csv = Ok sample_df /\
  filtered_df sample_df "Rift" "All" = [] /\
  dashboard sample_csv "Rift" "All" = Ok empty_page /\
  ratio_chart (filtered_df sample_df "Rift" "All") = [] /\
  shortage_chart (filtered_df sample_df "Rift" "All") = [] /\
  map_data (filtered_df sample_df "Rift" "All") = [].
Proof.
  assert (Hd : df sample_csv = Ok sample_df) by reflexivity.
  assert (Hf : filtered_df sample_df "Rift" "All" = []) by reflexivity.
  split; [exact Hd|]. split; [exact Hf|].
  exact (empty_filter_result sample_csv sample_df "Rift" "All" Hd Hf).
Defined.

Lemma figures_same_places (m : list LevelledRow) :
  map place (fig_shortage m) = map place (fig_infra m).
Proof.
  unfold fig_shortage, fig_infra. rewrite !map_map.
  apply map_ext. reflexivity.
Qed.

Lemma figures_same_sources (m : list LevelledRow) :
  map source (fig_shortage m) = map source (fig_infra m).
Proof.
  unfold fig_shortage, fig_infra. rewrite !map_map.
  apply map_ext. reflexivity.
Qed.

(** Every row of the levelled map frame of a filtered frame has a level
    and an infrastructure score. *)
Lemma levelled_rows_coloured (csv : list Row) (d : list SchoolRecord)
      (province district : string) (m : LevelledRow) :
  df csv = Ok d ->
  In m (add_Shortage_Level (map_data (filtered_df d province district))) ->
  level m <> None /\ infra_color m <> None.
Proof.
  intros Hd Hm. unfold add_Shortage_Level in Hm.
  apply in_map_iff in Hm. destruct Hm as [p [<- Hp]].
  apply map_data_In in Hp. destruct Hp as [[s [Hs ->]] Hc].
  destruct (derived_present csv d s Hd (filtered_df_In _ _ _ _ Hs))
    as [e [t [sh [_ [Ht [Hsh Hpos]]]]]].
  apply complete_select in Hc; [|congruence|congruence].
  destruct Hc as [_ [_ [_ Htoilet]]].
  simpl. split.
  - rewrite Hsh, Shortage_Level_bins.
    destruct (Z.leb_spec sh (-1)); [lia|].
    destruct (sh <=? 0); [discriminate|].
    destruct (sh <=? 19); [discriminate|].
    destruct (sh <=? 39); discriminate.
  - unfold infra_color. simpl.
    destruct (TotalToile (row s)); [discriminate|contradiction].
Qed.

(** C10.  On every page the script returns, the teacher-shortage map and
    the infrastructure map have the same markers in the same order (same
    school, same coordinates, same hover name), so a school is on one map
    exactly when it is on the other; every marker of the first has a level
    and every marker of the second has a score. *)
Theorem maps_share_points (csv : list Row) (province district : string)
        (page : Page) :
  dashboard csv province district = Ok page ->
  map place (map_shortage page) = map place (map_infra page) /\
  (forall i, In i (map source (map_shortage page)) <->
             In i (map source (map_infra page))) /\
  Forall (fun m => color m <> None) (map_shortage page) /\
  Forall (fun m => color m <> None) (map_infra page).
Proof.
  intros H. destruct (dashboard_Ok _ _ _ _ H) as [d [Hd ->]]. simpl.
  split; [apply figures_same_places|].
  split; [intros i; rewrite figures_same_sources; tauto|].
  split; apply Forall_forall; intros mk Hmk;
    apply in_map_iff in Hmk; destruct Hmk as [m [<- Hm]]; simpl;
    apply (levelled_rows_coloured csv d province district m Hd Hm).
Qed.

Lemma maps_share_points_witness :
  dashboard sample_csv "All" "All" = Ok sample_page /\
  map place (map_shortage sample_page) = map place (map_infra sample_page) /\
  (forall i, In i (map source (map_shortage sample_page)) <->
             In i (map source (map_infra sample_page))) /\
  Forall (fun m => color m <> None) (map_shortage sample_page) /\
  Forall (fun m => color m <> None) (map_infra sample_page).
Proof.
  assert (H : dashboard sample_csv "All" "All" = Ok sample_page) by reflexivity.
  split; [exact H|].
  exact (maps_share_points sample_csv "All" "All" sample_page H).
Defined.

(** * Further properties of the script *)

(** ** Preprocessing, lines 9-22 *)

Lemma mapM_Raise {A B : Type} (f : A -> result B) (l : list A) (e : exn) :
  mapM f l = Raise e <-> exists a, In a l /\ f a = Raise e.
Proof.
  induction l as [|a l IH]; simpl.
  - split; [discriminate|]. intros [a [[] _]].
  - destruct (f a) as [b|e'] eqn:Hfa; simpl.
    + destruct (mapM f l) as [bs|e'] eqn:Hl; simpl.
      * split; [discriminate|]. intros [a' [[<-|Hin] Ha']]; [congruence|].
        assert (H : Ok bs = Raise e) by (apply IH; eauto). discriminate.
      * split.
        -- intros H. apply IH in H. destruct H as [a' [Hin Ha']]. eauto.
        -- intros [a' [[<-|Hin] Ha']]; [congruence|]. apply IH. eauto.
    + split.
      * intros H. exists a. split; [auto|congruence].
      * intros [a' [[<-|Hin] Ha']]; [congruence|].
        destruct e, e'. reflexivity.
Qed.

Lemma derive_Raise (r : Row) (e : exn) :
  derive r = Raise e <-> TotalEnrol r = None.
Proof.
  unfold derive. simpl. destruct (TotalEnrol r) as [v|]; simpl.
  - rewrite !fillna_null_as_zero. simpl. split; discriminate.
  - destruct e. split; reflexivity.
Qed.

(** X1.  Lines 14-22 run on a frame that line 9 has not cleaned raise the
    integer-cast error exactly when some enrolment cell is missing, and
    return a frame otherwise. *)
Theorem derive_frame_raises (rows : list Row) :
  (mapM derive rows = Raise IntCastingNaNError <->
   exists r, In r rows /\ TotalEnrol r = None) /\
  ((forall r, In r rows -> TotalEnrol r <> None) ->
   exists d, mapM derive rows = Ok d).
Proof.
  split.
  - rewrite mapM_Raise. split; intros [r [Hin H]]; exists r; split; auto;
      apply (derive_Raise r IntCastingNaNError); exact H.
  - intros H. apply mapM_total. intros r Hr. apply derive_total.
    apply notna_true, H, Hr.
Qed.

Lemma df_indexes (rows : list Row) (d : list SchoolRecord) :
  Forall2 (fun r s => derive r = Ok s) rows d ->
  map (fun s => index (row s)) d = map index rows.
Proof.
  induction 1 as [|r s rows d Hrs _ IH]; simpl; [reflexivity|].
  destruct (derive_Ok r s Hrs) as [e [_ [Hrow _]]].
  rewrite Hrow, IH. reflexivity.
Qed.

(** X2.  Preprocessing returns a frame for every loaded file; the frame has one
    record for each loaded row whose enrolment is present and positive, in
    the order of the file and under the same row label. *)
Theorem df_keeps_valid_rows (csv : list Row) :
  exists d,
    df csv = Ok d /\
    List.length d = List.length (validity_stage csv) /\
    map (fun s => index (row s)) d = map index (validity_stage csv) /\
    Forall2 (fun r s => derive r = Ok s) (validity_stage csv) d.
Proof.
  destruct (df_total csv) as [d Hd]. exists d.
  pose proof (df_rows csv d Hd) as Hrows.
  repeat split; auto.
  - symmetry. eapply Forall2_length, Hrows.
  - apply df_indexes, Hrows.
Qed.

Lemma map_injective_In {A B : Type} (f : A -> B) (l : list A) (x y : A) :
  NoDup (map f l) -> In x l -> In y l -> f x = f y -> x = y.
Proof.
  induction l as [|a l IH]; simpl; intros Hnd Hx Hy Hxy; [contradiction|].
  inversion Hnd as [|? ? Hnotin Hnd']; subst.
  destruct Hx as [->|Hx], Hy as [->|Hy]; auto.
  - exfalso. apply Hnotin. rewrite Hxy. apply in_map, Hy.
  - exfalso. apply Hnotin. rewrite <- Hxy. apply in_map, Hx.
Qed.

Lemma marker_sources (f : list SchoolRecord) (i : nat) :
  In i (map source (fig_shortage (add_Shortage_Level (map_data f)))) ->
  In i (map (fun s => index (row s)) f).
Proof.
  unfold fig_shortage, add_Shortage_Level. rewrite !map_map. simpl.
  intros H. apply in_map_iff in H. destruct H as [p [<- Hp]].
  apply map_data_In in Hp. destruct Hp as [[s [Hs ->]] _].
  simpl. apply in_map_iff. exists s. auto.
Qed.

(** X3.  When the row labels of the loaded file are distinct, a loaded row whose
    enrolment is missing or not positive is in no filtered frame and on
    neither map, whatever is selected. *)
Theorem invalid_enrolment_excluded (csv : list Row) (r : Row)
        (province district : string) (page : Page) :
  NoDup (map index csv) -> In r csv -> valid_enrol (TotalEnrol r) = false ->
  dashboard csv province district = Ok page ->
  exists d,
    df csv = Ok d /\
    ~ In (index r) (map (fun s => index (row s)) (filtered_df d province district)) /\
    ~ In (index r) (map source (map_shortage page)) /\
    ~ In (index r) (map source (map_infra page)).
Proof.
  intros Hnd Hr Hinv Hpage.
  destruct (dashboard_Ok _ _ _ _ Hpage) as [d [Hd ->]].
  exists d. split; [exact Hd|].
  assert (Hout : ~ In (index r)
                   (map (fun s => index (row s)) (filtered_df d province district))).
  { intros Hin. apply in_map_iff in Hin. destruct Hin as [s [Hidx Hs]].
    apply filtered_df_In in Hs.
    destruct (df_In csv d s Hd Hs) as [r' [Hr' [Hv Hrs]]].
    destruct (derive_Ok r' s Hrs) as [e [_ [Hrow _]]].
    rewrite Hrow in Hidx. simpl in Hidx.
    assert (r' = r) by (apply (map_injective_In index csv); auto).
    subst r'. congruence. }
  split; [exact Hout|]. simpl. split.
  - intros H. apply Hout, marker_sources, H.
  - intros H. rewrite <- figures_same_sources in H.
    apply Hout, marker_sources, H.
Qed.

Lemma invalid_enrolment_excluded_witness :
  NoDup (map index sample_csv) /\
  In closed_school sample_csv /\
  valid_enrol (TotalEnrol closed_school) = false /\
  dashboard sample_csv "All" "All" = Ok sample_page /\
  exists d,
    df sample_csv = Ok d /\
    ~ In (index closed_school)
         (map (fun s => index (row s)) (filtered_df d "All" "All")) /\
    ~ In (index closed_school) (map source (map_shortage sample_page)) /\
    ~ In (index closed_school) (map source (map_infra sample_page)).
Proof.
  assert (Hnd : NoDup (map index sample_csv)).
  { simpl. repeat constructor; simpl; intros H;
      repeat (destruct H as [H|H]; [discriminate|]); exact H. }
  assert (Hr : In closed_school sample_csv) by (simpl; tauto).
  assert (Hv : valid_enrol (TotalEnrol closed_school) = false) by reflexivity.
  assert (Hp : dashboard sample_csv "All" "All" = Ok sample_page) by reflexivity.
  repeat (split; [assumption|]).
  exact (invalid_enrolment_excluded sample_csv closed_school "All" "All"
                                    sample_page Hnd Hr Hv Hp).
Defined.

(** ** Region filter and KPIs, lines 55-65 *)

Lemma sum_at_least_0 (col : list (option Z)) :
  Forall (at_least 0) col -> 0 <= Pandas.sum col.
Proof.
  induction 1 as [|[v|] col Hx _ IH]; simpl in *; lia.
Qed.

Lemma sum_filter_le {A : Type} (v : A -> option Z) (p : A -> bool) (l : list A) :
  Forall (fun a => at_least 0 (v a)) l ->
  Pandas.sum (map v (filter p l)) <= Pandas.sum (map v l).
Proof.
  induction 1 as [|a l Ha _ IH]; simpl; [lia|].
  destruct (p a); simpl; destruct (v a); simpl in *; lia.
Qed.

Lemma sum_present_ge_length {A : Type} (v : A -> option Z) (l : list A) :
  Forall (fun a => exists e, v a = Some e /\ 1 <= e) l ->
  Z.of_nat (List.length l) <= Pandas.sum (map v l).
Proof.
  induction 1 as [|a l [e [He Hpos]] _ IH]; [simpl; lia|].
  cbn [List.length map Pandas.sum]. rewrite He. lia.
Qed.

Lemma df_enrolment_positive (csv : list Row) (d : list SchoolRecord) (s : SchoolRecord) :
  df csv = Ok d -> In s d -> exists e, TotalEnrol (row s) = Some e /\ 1 <= e.
Proof.
  intros Hd Hs.
  destruct (df_In csv d s Hd Hs) as [r [_ [Hv Hr]]].
  destruct (derive_Ok r s Hr) as [e [He [Hrow _]]].
  apply valid_enrol_spec in Hv. destruct Hv as [v [Hv Hpos]].
  exists e. rewrite Hrow. simpl. split; [exact He|].
  rewrite He in Hv. inversion Hv. lia.
Qed.

Lemma df_columns_at_least_0 (csv : list Row) (d : list SchoolRecord) :
  df csv = Ok d ->
  Forall (fun s => at_least 0 (TotalEnrol (row s))) d /\
  Forall (fun s => at_least 0 (Teacher_Shortage s)) d.
Proof.
  intros Hd. split; apply Forall_forall; intros s Hs.
  - destruct (df_enrolment_positive csv d s Hd Hs) as [e [-> He]]. simpl. lia.
  - destruct (derived_present csv d s Hd Hs) as [e [t [sh [_ [_ [-> Hsh]]]]]].
    exact Hsh.
Qed.

Lemma filtered_df_In_iff (d : list SchoolRecord) (province district : string)
      (s : SchoolRecord) :
  In s (filtered_df d province district) <->
  In s d /\
  (province = "All"%string \/ Province (row s) = province) /\
  (district = "All"%string \/ District (row s) = district).
Proof.
  unfold filtered_df. rewrite region_stage_mask, filter_In.
  unfold region_mask. rewrite andb_true_iff, !orb_true_iff, !String.eqb_eq.
  tauto.
Qed.

(** X4.  A record is in the filtered frame exactly when it is in [df], the
    province selector is "All" or its province, and the district selector is
    "All" or its district. *)
Theorem filtered_df_spec (d : list SchoolRecord) (province district : string)
        (s : SchoolRecord) :
  In s (filtered_df d province district) <->
  In s d /\
  (province = "All"%string \/ Province (row s) = province) /\
  (district = "All"%string \/ District (row s) = district).
Proof.
  split; intros H.
  - apply filtered_df_In_iff in H. exact H.
  - apply filtered_df_In_iff. exact H.
Qed.

(** X5.  Whatever is selected, every record shown has an enrolment of at least
    1, so the enrolment KPI is at least the number of records shown, and the
    shortage KPI is not negative. *)
Theorem kpi_lower_bounds (csv : list Row) (d : list SchoolRecord)
        (province district : string) :
  df csv = Ok d ->
  Z.of_nat (List.length (filtered_df d province district))
    <= kpi1 (filtered_df d province district) /\
  0 <= kpi3 (filtered_df d province district).
Proof.
  intros Hd. split.
  - unfold kpi1. apply sum_present_ge_length. apply Forall_forall.
    intros s Hs. apply (df_enrolment_positive csv d s Hd).
    apply filtered_df_In in Hs. exact Hs.
  - unfold kpi3. apply sum_at_least_0. apply Forall_forall.
    intros x Hx. apply in_map_iff in Hx. destruct Hx as [s [<- Hs]].
    apply filtered_df_In in Hs.
    destruct (derived_present csv d s Hd Hs) as [e [t [sh [_ [_ [-> Hsh]]]]]].
    exact Hsh.
Qed.

Lemma kpi_lower_bounds_witness :
  df sample_csv = Ok sample_df /\
  Z.of_nat (List.length (filtered_df sample_df "Coast" "Kwale"))
    <= kpi1 (filtered_df sample_df "Coast" "Kwale") /\
  0 <= kpi3 (filtered_df sample_df "Coast" "Kwale").
Proof.
  assert (Hd : df sample_csv = Ok sample_df) by reflexivity.
  split; [exact Hd|].
  exact (kpi_lower_bounds sample_csv sample_df "Coast" "Kwale" Hd).
Defined.

(** X6.  Narrowing the selection never raises a total: the enrolment KPI and the
    shortage KPI of any selection are at most those of "All"/"All", and no
    selection shows more records than [df] has. *)
Theorem kpi_narrowing (csv : list Row) (d : list SchoolRecord)
        (province district : string) :
  df csv = Ok d ->
  kpi1 (filtered_df d province district) <= kpi1 (filtered_df d "All" "All") /\
  kpi3 (filtered_df d province district) <= kpi3 (filtered_df d "All" "All") /\
  (List.length (filtered_df d province district) <= List.length d)%nat.
Proof.
  intros Hd. rewrite filtered_df_All.
  destruct (df_columns_at_least_0 csv d Hd) as [H1 H3].
  unfold filtered_df. rewrite region_stage_mask. unfold kpi1, kpi3.
  split; [|split].
  - apply (sum_filter_le (fun s => TotalEnrol (row s))), H1.
  - apply (sum_filter_le Teacher_Shortage), H3.
  - apply filter_length_le.
Qed.

Lemma kpi_narrowing_witness :
  df sample_csv = Ok sample_df /\
  kpi1 (filtered_df sample_df "Coast" "All") <= kpi1 (filtered_df sample_df "All" "All") /\
  kpi3 (filtered_df sample_df "Coast" "All") <= kpi3 (filtered_df sample_df "All" "All") /\
  (List.length (filtered_df sample_df "Coast" "All") <= List.length sample_df)%nat.
Proof.
  assert (Hd : df sample_csv = Ok sample_df) by reflexivity.
  split; [exact Hd|].
  exact (kpi_narrowing sample_csv sample_df "Coast" "All" Hd).
Defined.

(** ** Sidebar options, lines 30-37 *)

Lemma unique_In (x : string) (col : list string) :
  In x (unique col) <-> In x col.
Proof.
  induction col as [|a col IH]; simpl; [tauto|].
  rewrite filter_In, IH, negb_true_iff, String.eqb_neq.
  destruct (String.string_dec a x); tauto.
Qed.

Lemma unique_NoDup (col : list string) : NoDup (unique col).
Proof.
  induction col as [|a col IH]; simpl; constructor.
  - rewrite filter_In, negb_true_iff, String.eqb_neq. tauto.
  - apply NoDup_filter, IH.
Qed.

Lemma insort_Permutation (x : string) (l : list string) :
  Permutation (x :: l) (insort x l).
Proof.
  induction l as [|y l IH]; simpl; [apply Permutation_refl|].
  destruct (String.ltb x y); [apply Permutation_refl|].
  eapply perm_trans; [apply perm_swap|]. apply perm_skip, IH.
Qed.

Lemma sorted_Permutation (l : list string) : Permutation l (sorted l).
Proof.
  unfold sorted. eapply perm_trans; [apply Permutation_rev|].
  induction (rev l) as [|a l' IH]; simpl; [constructor|].
  eapply perm_trans; [apply perm_skip, IH|apply insort_Permutation].
Qed.

Lemma ltb_false_leb (x y : string) : String.ltb x y = false -> String.leb y x = true.
Proof.
  unfold String.ltb, String.leb. rewrite (String.compare_antisym y x).
  destruct (String.compare x y); simpl; congruence.
Qed.

Lemma ltb_true_leb (x y : string) : String.ltb x y = true -> String.leb x y = true.
Proof.
  unfold String.ltb, String.leb. destruct (String.compare x y); congruence.
Qed.

Lemma insort_Sorted (x : string) (l : list string) :
  Sorted (fun a b => String.leb a b = true) l ->
  Sorted (fun a b => String.leb a b = true) (insort x l).
Proof.
  induction 1 as [|y l Hl IH Hy]; simpl; [repeat constructor|].
  destruct (String.ltb x y) eqn:Hxy.
  - constructor; [constructor; assumption|].
    constructor. apply ltb_true_leb, Hxy.
  - constructor; [exact IH|].
    destruct l as [|z l]; simpl.
    + constructor. apply ltb_false_leb, Hxy.
    + inversion Hy; subst.
      destruct (String.ltb x z); constructor; auto.
      apply ltb_false_leb, Hxy.
Qed.

Lemma sorted_Sorted (l : list string) :
  Sorted (fun a b => String.leb a b = true) (sorted l).
Proof.
  unfold sorted. induction (rev l) as [|a l' IH]; simpl; [constructor|].
  apply insort_Sorted, IH.
Qed.

Lemma sorted_unique_In (x : string) (col : list string) :
  In x (sorted (unique col)) <-> In x col.
Proof.
  split; intros H.
  - apply unique_In.
    eapply Permutation_in; [apply Permutation_sym, sorted_Permutation|exact H].
  - eapply Permutation_in; [apply sorted_Permutation|]. apply unique_In, H.
Qed.

Lemma sorted_unique_NoDup (col : list string) : NoDup (sorted (unique col)).
Proof.
  eapply Permutation_NoDup; [apply sorted_Permutation|apply unique_NoDup].
Qed.

Lemma provinces_In (d : list SchoolRecord) (p : string) :
  In p (sorted (unique (map (fun s => Province (row s)) d))) <->
  exists s, In s d /\ Province (row s) = p.
Proof.
  rewrite sorted_unique_In, in_map_iff.
  split; intros [s [H1 H2]]; exists s; auto.
Qed.

Lemma province_options_In (d : list SchoolRecord) (p : string) :
  In p (province_options d) <->
  p = "All"%string \/ exists s, In s d /\ Province (row s) = p.
Proof.
  unfold province_options. simpl. rewrite provinces_In.
  split; intros [H|H]; auto.
Qed.

Lemma district_options_In (d : list SchoolRecord) (province k : string) :
  In k (district_options d province) <->
  exists s, In s d /\ District (row s) = k /\
            (province = "All"%string \/ Province (row s) = province).
Proof.
  unfold district_options.
  destruct (String.eqb province "All") eqn:Hp; simpl.
  - apply String.eqb_eq in Hp. subst province.
    rewrite sorted_unique_In, in_map_iff. split.
    + intros [s [H1 H2]]. exists s. auto.
    + intros [s [H1 [H2 _]]]. exists s. auto.
  - apply String.eqb_neq in Hp.
    rewrite sorted_unique_In, in_map_iff. split.
    + intros [s [H1 H2]]. apply filter_In in H2. destruct H2 as [H2 H3].
      apply String.eqb_eq in H3. exists s. auto.
    + intros [s [H1 [H2 [H3|H3]]]]; [contradiction|].
      exists s. split; [exact H2|]. apply filter_In. split; [exact H1|].
      apply String.eqb_eq, H3.
Qed.

(** X7.  The province box offers "All" first and then every province of [df]
    once, in ascending order, and nothing else. *)
Theorem province_options_spec (d : list SchoolRecord) :
  exists provinces,
    province_options d = "All"%string :: provinces /\
    (forall p, In p provinces <-> exists s, In s d /\ Province (row s) = p) /\
    NoDup provinces /\
    Sorted (fun a b => String.leb a b = true) provinces.
Proof.
  eexists. split; [reflexivity|]. split; [|split].
  - intros p. apply provinces_In.
  - apply sorted_unique_NoDup.
  - apply sorted_Sorted.
Qed.

(** X8.  The district list holds every district that some record of [df] has
    within the selected province (within the whole of [df] when the
    province is "All"), once each, in ascending order, and nothing else. *)
Theorem district_options_spec (d : list SchoolRecord) (province : string) :
  (forall k, In k (district_options d province) <->
             exists s, In s d /\ District (row s) = k /\
                       (province = "All"%string \/ Province (row s) = province)) /\
  NoDup (district_options d province) /\
  Sorted (fun a b => String.leb a b = true) (district_options d province).
Proof.
  split; [intros k; apply district_options_In|].
  unfold district_options.
  destruct (negb (String.eqb province "All"));
    split; try apply sorted_unique_NoDup; apply sorted_Sorted.
Qed.

(** X9.  Any pair picked from the two boxes shows at least one school, as long
    as [df] has a record at all. *)
Theorem offered_selection_not_empty (d : list SchoolRecord)
        (province district : string) :
  d <> [] ->
  In province (province_options d) ->
  In district (district_select_options d province) ->
  filtered_df d province district <> [].
Proof.
  intros Hd Hp Hk.
  assert (Hex : exists s, In s (filtered_df d province district)).
  { apply province_options_In in Hp.
    unfold district_select_options in Hk.
    destruct Hk as [<-|Hk].
    - destruct Hp as [->|Hp].
      + destruct d as [|s d']; [contradiction Hd; reflexivity|].
        exists s. apply filtered_df_In_iff. simpl. auto.
      + destruct Hp as [s [Hs Hprov]].
        exists s. apply filtered_df_In_iff. auto.
    - apply district_options_In in Hk. destruct Hk as [s [Hs [Hk Hprov]]].
      exists s. apply filtered_df_In_iff. auto. }
  destruct Hex as [s Hs]. intros Hnil. rewrite Hnil in Hs. exact Hs.
Qed.

Lemma offered_selection_not_empty_witness :
  sample_df <> [] /\
  In "Coast"%string (province_options sample_df) /\
  In "Kwale"%string (district_select_options sample_df "Coast") /\
  filtered_df sample_df "Coast" "Kwale" <> [].
Proof.
  assert (Hd : sample_df <> []) by discriminate.
  assert (Hp : In "Coast"%string (province_options sample_df))
    by (vm_compute; tauto).
  assert (Hk : In "Kwale"%string (district_select_options sample_df "Coast"))
    by (vm_compute; tauto).
  repeat (split; [assumption|]).
  exact (offered_selection_not_empty sample_df "Coast" "Kwale" Hd Hp Hk).
Defined.

Lemma views_nil : views [] = empty_page.
Proof. reflexivity. Qed.

(** X10.  A province that is neither "All" nor offered by the province box gives
    the empty page, whatever the district selector is; nothing is raised. *)
Theorem unmatched_province_empty_page (csv : list Row) (d : list SchoolRecord)
        (province district : string) :
  df csv = Ok d ->
  ~ In province (province_options d) ->
  filtered_df d province district = [] /\
  dashboard csv province district = Ok empty_page.
Proof.
  intros Hd Hp.
  assert (Hf : filtered_df d province district = []).
  { destruct (filtered_df d province district) as [|s f] eqn:Hf; [reflexivity|].
    exfalso. assert (Hs : In s (filtered_df d province district))
      by (rewrite Hf; simpl; auto).
    apply filtered_df_In_iff in Hs. destruct Hs as [Hs [Hprov _]].
    apply Hp. apply province_options_In.
    destruct Hprov as [->|Hprov]; [auto|]. right. exists s. auto. }
  split; [exact Hf|].
  unfold dashboard. rewrite Hd. simpl. rewrite Hf, views_nil. reflexivity.
Qed.

Lemma unmatched_province_empty_page_witness :
  df sample_csv = Ok sample_df /\
  ~ In "Rift"%string (province_options sample_df) /\
  filtered_df sample_df "Rift" "Kwale" = [] /\
  dashboard sample_csv "Rift" "Kwale" = Ok empty_page.
Proof.
  assert (Hd : df sample_csv = Ok sample_df) by reflexivity.
  assert (Hp : ~ In "Rift"%string (province_options sample_df)).
  { vm_compute. intros H.
    repeat (destruct H as [H|H]; [discriminate|]). exact H. }
  repeat (split; [assumption|]).
  exact (unmatched_province_empty_page sample_csv sample_df "Rift" "Kwale" Hd Hp).
Defined.

(** ** Group-by charts, lines 70-77 *)

Lemma string_lt_trans (a b c : string) :
  string_lt a b -> string_lt b c -> string_lt a c.
Proof.
  unfold string_lt. intros H1 H2.
  apply String_as_OT.cmp_lt in H1. apply String_as_OT.cmp_lt in H2.
  apply String_as_OT.cmp_lt. eapply String_as_OT.lt_trans; eauto.
Qed.

Lemma string_lt_irrefl (a : string) : ~ string_lt a a.
Proof.
  unfold string_lt. intros H.
  assert (E : String.compare a a = Eq) by (apply String_as_OT.cmp_eq; reflexivity).
  congruence.
Qed.

Lemma compare_Gt_lt (a b : string) : String.compare a b = Gt -> string_lt b a.
Proof.
  unfold string_lt. intros H. rewrite String.compare_antisym, H. reflexivity.
Qed.

Lemma StronglySorted_lt_NoDup (l : list string) :
  StronglySorted string_lt l -> NoDup l.
Proof.
  induction 1 as [|a l _ IH Ha]; constructor; [|exact IH].
  intros Hin. rewrite Forall_forall in Ha.
  apply (string_lt_irrefl a), Ha, Hin.
Qed.

Lemma group_insert_keys {A : Type} (k : string) (a : A)
      (gs : list (string * list A)) (x : string) :
  In x (map fst (Pandas.group_insert k a gs)) -> x = k \/ In x (map fst gs).
Proof.
  induction gs as [|[k' g] gs IH]; simpl.
  - intros [<-|[]]; auto.
  - destruct (String.compare k k') eqn:Hc; simpl.
    + tauto.
    + intros [<-|[<-|H]]; auto.
    + intros [<-|H]; auto. destruct (IH H); auto.
Qed.

Lemma group_insert_sorted {A : Type} (k : string) (a : A)
      (gs : list (string * list A)) :
  StronglySorted string_lt (map fst gs) ->
  StronglySorted string_lt (map fst (Pandas.group_insert k a gs)).
Proof.
  induction gs as [|[k' g] gs IH]; simpl; intros HS.
  - repeat constructor.
  - inversion HS as [|? ? HS' Hall]; subst.
    destruct (String.compare k k') eqn:Hc; simpl.
    + exact HS.
    + constructor; [exact HS|]. constructor; [exact Hc|].
      eapply Forall_impl; [|exact Hall].
      intros x Hx. eapply string_lt_trans; [exact Hc|exact Hx].
    + constructor; [apply IH, HS'|].
      apply Forall_forall. intros x Hx.
      destruct (group_insert_keys _ _ _ _ Hx) as [->|Hin].
      * apply compare_Gt_lt, Hc.
      * rewrite Forall_forall in Hall. apply Hall, Hin.
Qed.

(** Where [group_insert] puts a row: on top of the group of its key, or in
    a new group when the key is new. *)
Lemma group_insert_split {A : Type} (k : string) (a : A)
      (gs : list (string * list A)) :
  StronglySorted string_lt (map fst gs) ->
  (exists gs1 g gs2,
      gs = gs1 ++ (k, g) :: gs2 /\
      Pandas.group_insert k a gs = gs1 ++ (k, a :: g) :: gs2) \/
  (~ In k (map fst gs) /\
   exists gs1 gs2,
     gs = gs1 ++ gs2 /\
     Pandas.group_insert k a gs = gs1 ++ (k, [a]) :: gs2).
Proof.
  induction gs as [|[k' g] gs IH]; simpl; intros HS.
  - right. split; [tauto|]. exists [], []. auto.
  - inversion HS as [|? ? HS' Hall]; subst.
    destruct (String.compare k k') eqn:Hc.
    + apply String.compare_eq_iff in Hc. subst k'.
      left. exists [], g, gs. auto.
    + right. split.
      * intros [Heq|Hin].
        -- subst k'. apply (string_lt_irrefl k), Hc.
        -- rewrite Forall_forall in Hall.
           apply (string_lt_irrefl k).
           eapply string_lt_trans; [exact Hc|apply Hall, Hin].
      * exists [], ((k', g) :: gs). auto.
    + assert (Hne : k' <> k).
      { intros ->. apply compare_Gt_lt in Hc. apply (string_lt_irrefl k), Hc. }
      destruct (IH HS') as [[gs1 [g0 [gs2 [E1 E2]]]]|[Hnot [gs1 [gs2 [E1 E2]]]]].
      * left. exists ((k', g) :: gs1), g0, gs2. simpl. rewrite E1 at 1.
        rewrite E2. auto.
      * right. split; [tauto|].
        exists ((k', g) :: gs1), gs2. simpl. rewrite E1 at 1. rewrite E2. auto.
Qed.

Lemma filter_none {A : Type} (p : A -> bool) (l : list A) :
  (forall x, In x l -> p x = false) -> filter p l = [].
Proof.
  induction l as [|a l IH]; simpl; intros H; [reflexivity|].
  rewrite (H a) by auto. apply IH. intros x Hx. apply H. auto.
Qed.

(** What [groupby] keeps true: the keys strictly ascending, each group the
    rows of its key in frame order and not empty, the groups together a
    rearrangement of the frame. *)
Lemma groupby_invariant {A : Type} (key : A -> string) (l : list A) :
  StronglySorted string_lt (map fst (Pandas.groupby key l)) /\
  Forall (fun kg => snd kg = filter (fun a => String.eqb (key a) (fst kg)) l /\
                    snd kg <> [])
         (Pandas.groupby key l) /\
  Permutation (List.concat (map snd (Pandas.groupby key l))) l.
Proof.
  induction l as [|a l [HS [HF HP]]].
  - simpl. repeat split; constructor.
  - change (Pandas.groupby key (a :: l))
      with (Pandas.group_insert (key a) a (Pandas.groupby key l)).
    set (gs := Pandas.groupby key l) in *.
    split; [apply group_insert_sorted, HS|].
    pose proof (StronglySorted_lt_NoDup _ HS) as Hnd.
    assert (Hother : forall kg, In kg gs -> fst kg <> key a ->
              snd kg = filter (fun b => String.eqb (key b) (fst kg)) (a :: l)
              /\ snd kg <> []).
    { intros kg Hin Hne. rewrite Forall_forall in HF.
      destruct (HF kg Hin) as [E N]. split; [|exact N].
      simpl. destruct (String.eqb (key a) (fst kg)) eqn:Hk; [|exact E].
      apply String.eqb_eq in Hk. congruence. }
    destruct (group_insert_split (key a) a gs HS)
      as [[gs1 [g [gs2 [E1 E2]]]]|[Hnot [gs1 [gs2 [E1 E2]]]]]; rewrite E2.
    + rewrite E1, map_app in Hnd. simpl in Hnd.
      pose proof (NoDup_remove_2 _ _ _ Hnd) as Hk.
      rewrite in_app_iff in Hk.
      split.
      * apply Forall_app. split; [|constructor].
        -- apply Forall_forall. intros kg Hin. apply Hother.
           ++ rewrite E1. apply in_or_app. auto.
           ++ intros Heq. apply Hk. left. rewrite <- Heq. apply in_map, Hin.
        -- simpl. rewrite String.eqb_refl. split; [|discriminate].
           f_equal. rewrite Forall_forall in HF.
           apply (HF (key a, g)). rewrite E1. apply in_or_app. simpl; auto.
        -- apply Forall_forall. intros kg Hin. apply Hother.
           ++ rewrite E1. apply in_or_app. simpl; auto.
           ++ intros Heq. apply Hk. right. rewrite <- Heq. apply in_map, Hin.
      * rewrite map_app, List.concat_app. simpl.
        eapply perm_trans; [apply Permutation_sym, Permutation_middle|].
        apply perm_skip. rewrite E1, map_app, List.concat_app in HP. exact HP.
    + split.
      * apply Forall_app. split; [|constructor].
        -- apply Forall_forall. intros kg Hin. apply Hother.
           ++ rewrite E1. apply in_or_app. auto.
           ++ intros Heq. apply Hnot. rewrite <- Heq, E1. apply in_map.
              apply in_or_app. auto.
        -- simpl. rewrite String.eqb_refl. split; [|discriminate].
           f_equal. symmetry. apply filter_none. intros b Hb.
           apply String.eqb_neq. intros Heq. apply Hnot.
           destruct (groupby_In key l b Hb) as [g [Hg _]].
           rewrite <- Heq. apply (in_map fst) in Hg. exact Hg.
        -- apply Forall_forall. intros kg Hin. apply Hother.
           ++ rewrite E1. apply in_or_app. auto.
           ++ intros Heq. apply Hnot. rewrite <- Heq, E1. apply in_map.
              apply in_or_app. auto.
      * rewrite map_app, List.concat_app. simpl.
        eapply perm_trans; [apply Permutation_sym, Permutation_middle|].
        apply perm_skip. rewrite E1, map_app, List.concat_app in HP. exact HP.
Qed.

(** The groups of a frame: there is a group for the key [k] exactly when
    some row has that key, and it holds the rows of that key. *)
Lemma groupby_groups {A : Type} (key : A -> string) (l : list A)
      (k : string) (g : list A) :
  In (k, g) (Pandas.groupby key l) <->
  g = filter (fun a => String.eqb (key a) k) l /\ g <> [].
Proof.
  destruct (groupby_invariant key l) as [_ [HF _]].
  rewrite Forall_forall in HF. split.
  - intros Hin. apply (HF (k, g) Hin).
  - intros [E N]. destruct g as [|a g']; [contradiction N; reflexivity|].
    assert (Ha : In a (filter (fun a => String.eqb (key a) k) l))
      by (rewrite <- E; simpl; auto).
    apply filter_In in Ha. destruct Ha as [Ha Hk].
    apply String.eqb_eq in Hk.
    destruct (groupby_In key l a Ha) as [g0 [Hg0 _]].
    rewrite Hk in Hg0. destruct (HF _ Hg0) as [E0 _]. simpl in E0.
    rewrite E, <- E0. exact Hg0.
Qed.

Lemma of_district_nonempty (k : string) (f : list SchoolRecord) :
  of_district k f <> [] <-> exists s, In s f /\ District (row s) = k.
Proof.
  unfold of_district. split.
  - destruct (filter _ f) as [|s g] eqn:E; [intros H; contradiction H; reflexivity|].
    intros _. assert (Hs : In s (filter (fun s => String.eqb (District (row s)) k) f))
      by (rewrite E; simpl; auto).
    apply filter_In in Hs. destruct Hs as [Hs Hk].
    apply String.eqb_eq in Hk. exists s. auto.
  - intros [s [Hs Hk]] E.
    assert (Hin : In s (filter (fun s => String.eqb (District (row s)) k) f)).
    { apply filter_In. split; [exact Hs|]. apply String.eqb_eq, Hk. }
    rewrite E in Hin. exact Hin.
Qed.

Lemma by_district_groups (f : list SchoolRecord) (k : string) (g : list SchoolRecord) :
  In (k, g) (by_district f) <->
  g = of_district k f /\ exists s, In s f /\ District (row s) = k.
Proof.
  unfold by_district. rewrite groupby_groups.
  fold (of_district k f). rewrite <- of_district_nonempty.
  split; intros [E N]; split; auto; congruence.
Qed.

(** X11.  The shortage chart before the top-10 cut has one bar for each district
    that a shown school has, in strictly ascending order of district name,
    and the bar of a district is the sum of the shortages of the shown
    schools of that district. *)
Theorem shortage_chart_rows (f : list SchoolRecord) :
  StronglySorted string_lt (map fst (shortage_chart f)) /\
  forall k v,
    In (k, v) (shortage_chart f) <->
    (exists s, In s f /\ District (row s) = k) /\ v = kpi3 (of_district k f).
Proof.
  split.
  - unfold shortage_chart. rewrite map_map. simpl.
    apply (groupby_invariant (fun s => District (row s)) f).
  - intros k v. unfold shortage_chart. rewrite in_map_iff. split.
    + intros [[k' g] [E Hin]]. simpl in E. inversion E; subst.
      apply by_district_groups in Hin. destruct Hin as [-> Hex].
      split; [exact Hex|reflexivity].
    + intros [Hex ->]. exists (k, of_district k f). split; [reflexivity|].
      apply by_district_groups. auto.
Qed.

Lemma ratio_chart_In (f : list SchoolRecord) (k : string) (m : option Q) :
  In (k, m) (ratio_chart f) <->
  (exists s, In s f /\ District (row s) = k) /\
  m = Pandas.mean (map (fun s => PupilTeach (row s)) (of_district k f)).
Proof.
  unfold ratio_chart. rewrite in_map_iff. split.
  - intros [[k' g] [E Hin]]. simpl in E. inversion E; subst.
    apply by_district_groups in Hin. destruct Hin as [-> Hex].
    split; [exact Hex|reflexivity].
  - intros [Hex ->]. exists (k, of_district k f). split; [reflexivity|].
    apply by_district_groups. auto.
Qed.

(** X12.  The ratio chart has the same districts in the same order as the
    shortage chart, and the bar of a district is the mean of the
    pupil-teacher ratios of the shown schools of that district. *)
Theorem ratio_chart_rows (f : list SchoolRecord) :
  map fst (ratio_chart f) = map fst (shortage_chart f) /\
  forall k m,
    In (k, m) (ratio_chart f) <->
    (exists s, In s f /\ District (row s) = k) /\
    m = Pandas.mean (map (fun s => PupilTeach (row s)) (of_district k f)).
Proof.
  split.
  - unfold ratio_chart, shortage_chart. rewrite !map_map. reflexivity.
  - intros k m. apply ratio_chart_In.
Qed.

Lemma sum_Permutation (l l' : list (option Z)) :
  Permutation l l' -> Pandas.sum l = Pandas.sum l'.
Proof.
  induction 1 as [|x l l' _ IH|x y l|l l' l'' _ IH1 _ IH2]; simpl.
  - reflexivity.
  - destruct x; rewrite IH; reflexivity.
  - destruct x, y; lia.
  - congruence.
Qed.

Lemma group_sums_total {A : Type} (v : A -> option Z) (gs : list (string * list A)) :
  total_of (map (fun kg => Pandas.sum (map v (snd kg))) gs) =
  Pandas.sum (map v (List.concat (map snd gs))).
Proof.
  induction gs as [|[k g] gs IH]; [reflexivity|].
  cbn [map snd List.concat total_of fold_right].
  rewrite map_app, sum_app. fold (total_of (map (fun kg => Pandas.sum (map v (snd kg))) gs)).
  rewrite IH. reflexivity.
Qed.

(** X13.  The bars of the shortage chart before the top-10 cut add up to the
    shortage KPI. *)
Theorem shortage_chart_total (f : list SchoolRecord) :
  total_of (map snd (shortage_chart f)) = kpi3 f.
Proof.
  unfold shortage_chart, kpi3. rewrite map_map. simpl.
  rewrite (group_sums_total Teacher_Shortage).
  apply sum_Permutation, Permutation_map.
  apply (groupby_invariant (fun s => District (row s)) f).
Qed.

Lemma count_0 {A : Type} (col : list (option A)) :
  Pandas.count col = O <-> forall x, In x col -> x = None.
Proof.
  induction col as [|[v|] col IH]; simpl.
  - split; [intros _ x []|reflexivity].
  - split; [discriminate|]. intros H. specialize (H (Some v) (or_introl eq_refl)).
    discriminate.
  - rewrite IH. split.
    + intros H x [<-|Hx]; auto.
    + intros H x Hx. apply H. auto.
Qed.

Lemma mean_None (col : list (option Q)) :
  Pandas.mean col = None <-> forall x, In x col -> x = None.
Proof.
  rewrite <- count_0. unfold Pandas.mean.
  destruct (Pandas.count col); split; congruence.
Qed.

(** X14.  A bar of the ratio chart is missing exactly when every shown school
    of the district has no pupil-teacher ratio. *)
Theorem ratio_chart_missing (f : list SchoolRecord) (k : string) (m : option Q) :
  In (k, m) (ratio_chart f) ->
  (m = None <->
   forall s, In s f -> District (row s) = k -> PupilTeach (row s) = None).
Proof.
  intros Hin. apply ratio_chart_In in Hin. destruct Hin as [_ ->].
  rewrite mean_None. split.
  - intros H s Hs Hk. apply H. apply in_map_iff. exists s. split; [reflexivity|].
    apply filter_In. split; [exact Hs|]. apply String.eqb_eq, Hk.
  - intros H x Hx. apply in_map_iff in Hx. destruct Hx as [s [<- Hs]].
    apply filter_In in Hs. destruct Hs as [Hs Hk].
    apply String.eqb_eq in Hk. apply H; assumption.
Qed.

(** Every school of the eleven districts has no ratio, so the bar of D00 is
    missing. *)
Lemma ratio_chart_missing_witness :
  In ("D00"%string, None) (ratio_chart eleven_df) /\
  (@None Q = None <->
   forall s, In s eleven_df -> District (row s) = "D00"%string ->
             PupilTeach (row s) = None).
Proof.
  assert (H : In ("D00"%string, @None Q) (ratio_chart eleven_df))
    by (left; reflexivity).
  split; [exact H|].
  exact (ratio_chart_missing eleven_df "D00" None H).
Defined.

Lemma StronglySorted_app {A : Type} (R : A -> A -> Prop) (l1 l2 : list A) :
  StronglySorted R (l1 ++ l2) ->
  StronglySorted R l1 /\ forall x y, In x l1 -> In y l2 -> R x y.
Proof.
  induction l1 as [|a l1 IH]; simpl; intros HS.
  - split; [constructor|]. intros x y [].
  - inversion HS as [|? ? HS' Hall]; subst.
    destruct (IH HS') as [H1 H2]. rewrite Forall_forall in Hall. split.
    + constructor; [exact H1|]. apply Forall_forall. intros x Hx.
      apply Hall, in_or_app. auto.
    + intros x y [<-|Hx] Hy; [|apply H2; assumption].
      apply Hall, in_or_app. auto.
Qed.

Lemma sort_values_desc_StronglySorted {A : Type} (val : A -> Z) (l : list A) :
  StronglySorted (fun x y => val y <= val x) (Pandas.sort_values_desc val l).
Proof.
  apply Sorted_StronglySorted; [|apply sort_values_desc_Sorted].
  intros x y z Hxy Hyz. lia.
Qed.

(** X15.  The shortage chart that is drawn has at most ten bars, highest first;
    together with the bars left out it is the whole chart rearranged, no bar
    left out is higher than a bar drawn, and nothing is left out when there
    are ten districts or fewer. *)
Theorem shortage_chart_top10_spec (f : list SchoolRecord) :
  (List.length (shortage_chart_top10 f) <= 10)%nat /\
  StronglySorted (fun x y => snd y <= snd x) (shortage_chart_top10 f) /\
  exists rest,
    Permutation (shortage_chart f) (shortage_chart_top10 f ++ rest) /\
    (forall x y, In x (shortage_chart_top10 f) -> In y rest -> snd y <= snd x) /\
    ((List.length (shortage_chart f) <= 10)%nat -> rest = []).
Proof.
  unfold shortage_chart_top10, Pandas.head.
  set (chart := shortage_chart f).
  set (sorted_chart := Pandas.sort_values_desc snd chart).
  pose proof (sort_values_desc_StronglySorted snd chart) as HS.
  fold sorted_chart in HS.
  rewrite <- (firstn_skipn 10 sorted_chart) in HS.
  apply StronglySorted_app in HS. destruct HS as [HS1 HS2].
  split; [apply firstn_le_length|]. split; [exact HS1|].
  exists (skipn 10 sorted_chart). split; [|split].
  - rewrite firstn_skipn. apply sort_values_desc_Permutation.
  - exact HS2.
  - intros Hlen. apply skipn_all2. unfold sorted_chart.
    rewrite <- (Permutation_length (sort_values_desc_Permutation snd chart)).
    exact Hlen.
Qed.

(** ** KPIs by province *)

Lemma sum_filter_split {A : Type} (v : A -> option Z) (p q : A -> bool) (l : list A) :
  (forall a, In a l -> p a = true -> q a = false) ->
  Pandas.sum (map v (filter (fun a => p a || q a) l)) =
  Pandas.sum (map v (filter p l)) + Pandas.sum (map v (filter q l)).
Proof.
  induction l as [|a l IH]; simpl; intros H; [reflexivity|].
  assert (IH' := IH (fun x Hx => H x (or_intror Hx))).
  destruct (p a) eqn:Hp; simpl.
  - rewrite (H a (or_introl eq_refl) Hp). simpl.
    destruct (v a); rewrite IH'; lia.
  - destruct (q a); simpl; [destruct (v a)|]; rewrite IH'; lia.
Qed.

Lemma sum_by_keys {A : Type} (v : A -> option Z) (key : A -> string)
      (ks : list string) (l : list A) :
  NoDup ks ->
  total_of (map (fun k => Pandas.sum (map v (filter (fun a => String.eqb (key a) k) l))) ks) =
  Pandas.sum (map v (filter (fun a => existsb (String.eqb (key a)) ks) l)).
Proof.
  induction 1 as [|k ks Hk Hnd IH].
  - simpl. rewrite filter_none by reflexivity. reflexivity.
  - cbn [map total_of fold_right existsb].
    fold (total_of (map (fun k => Pandas.sum (map v (filter (fun a => String.eqb (key a) k) l))) ks)).
    rewrite IH.
    rewrite (sum_filter_split v (fun a => String.eqb (key a) k)
                              (fun a => existsb (String.eqb (key a)) ks)).
    + reflexivity.
    + intros a _ Ha. apply String.eqb_eq in Ha.
      destruct (existsb (String.eqb (key a)) ks) eqn:He; [|reflexivity].
      apply existsb_exists in He. destruct He as [x [Hx Hax]].
      apply String.eqb_eq in Hax. exfalso. apply Hk. congruence.
Qed.

Lemma filtered_df_province (d : list SchoolRecord) (p : string) :
  p <> "All"%string ->
  filtered_df d p "All" = filter (fun s => String.eqb (Province (row s)) p) d.
Proof.
  intros Hp. unfold filtered_df, region_stage.
  apply String.eqb_neq in Hp. rewrite Hp. reflexivity.
Qed.

(** X16.  When no province of [df] is itself called "All", the three KPIs of
    "All"/"All" are the sums, over the provinces the province box offers, of
    the KPIs of each province with district "All". *)
Theorem kpis_add_up_by_province (d : list SchoolRecord) (provinces : list string) :
  province_options d = "All"%string :: provinces ->
  (forall s, In s d -> Province (row s) <> "All"%string) ->
  kpi1 (filtered_df d "All" "All") =
    total_of (map (fun p => kpi1 (filtered_df d p "All")) provinces) /\
  kpi2 (filtered_df d "All" "All") =
    total_of (map (fun p => kpi2 (filtered_df d p "All")) provinces) /\
  kpi3 (filtered_df d "All" "All") =
    total_of (map (fun p => kpi3 (filtered_df d p "All")) provinces).
Proof.
  intros Hopts Hall. rewrite filtered_df_All.
  assert (Hps : sorted (unique (map (fun s => Province (row s)) d)) = provinces)
    by (unfold province_options in Hopts; congruence).
  assert (Hin : forall p, In p provinces <->
                          exists s, In s d /\ Province (row s) = p).
  { intros p. rewrite <- Hps. apply provinces_In. }
  assert (Hnd : NoDup provinces).
  { rewrite <- Hps. apply sorted_unique_NoDup. }
  assert (Hcover : filter (fun s => existsb (String.eqb (Province (row s))) provinces) d = d).
  { apply forallb_filter_id, forallb_forall. intros s Hs.
    apply existsb_exists. exists (Province (row s)).
    split; [apply Hin; eauto|apply String.eqb_refl]. }
  assert (Hnot : forall p, In p provinces -> p <> "All"%string).
  { intros p Hp. apply Hin in Hp. destruct Hp as [s [Hs <-]]. apply Hall, Hs. }
  assert (Hmap : forall (kpi : list SchoolRecord -> Z),
             map (fun p => kpi (filtered_df d p "All")) provinces =
             map (fun p => kpi (filter (fun s => String.eqb (Province (row s)) p) d))
                 provinces).
  { intros kpi. apply map_ext_in. intros p Hp.
    rewrite filtered_df_province by (apply Hnot, Hp). reflexivity. }
  rewrite !Hmap. unfold kpi1, kpi2, kpi3.
  rewrite (sum_by_keys (fun s => TotalEnrol (row s)) (fun s => Province (row s))
                       provinces d Hnd).
  rewrite (sum_by_keys Total_Teachers_Recalc (fun s => Province (row s))
                       provinces d Hnd).
  rewrite (sum_by_keys Teacher_Shortage (fun s => Province (row s))
                       provinces d Hnd).
  rewrite Hcover. repeat split; reflexivity.
Qed.

Lemma kpis_add_up_by_province_witness :
  province_options sample_df = ["All"; "Coast"; "Nairobi"]%string /\
  (forall s, In s sample_df -> Province (row s) <> "All"%string) /\
  kpi1 (filtered_df sample_df "All" "All") =
    total_of (map (fun p => kpi1 (filtered_df sample_df p "All"))
                  ["Coast"; "Nairobi"]%string) /\
  kpi2 (filtered_df sample_df "All" "All") =
    total_of (map (fun p => kpi2 (filtered_df sample_df p "All"))
                  ["Coast"; "Nairobi"]%string) /\
  kpi3 (filtered_df sample_df "All" "All") =
    total_of (map (fun p => kpi3 (filtered_df sample_df p "All"))
                  ["Coast"; "Nairobi"]%string).
Proof.
  assert (Ho : province_options sample_df = ["All"; "Coast"; "Nairobi"]%string)
    by reflexivity.
  assert (Ha : forall s, In s sample_df -> Province (row s) <> "All"%string).
  { intros s Hs. simpl in Hs.
    repeat (destruct Hs as [<-|Hs]; [discriminate|]). contradiction. }
  split; [exact Ho|]. split; [exact Ha|].
  exact (kpis_add_up_by_province sample_df ["Coast"; "Nairobi"]%string Ho Ha).
Defined.

(** ** Teachers required, line 18 *)

Lemma nearest_ties_even_monotone (x y : Q) (t1 t2 : Z) :
  (x <= y)%Q -> nearest_ties_even x t1 -> nearest_ties_even y t2 -> t1 <= t2.
Proof.
  intros Hxy [H1 E1] [H2 E2].
  apply Qabs_half_bounds in H1, H2.
  assert (Hle : (inject_Z t1 <= inject_Z (t2 + 1))%Q).
  { rewrite inject_Z_plus. change (inject_Z 1) with 1%Q. lra. }
  rewrite <- Zle_Qle in Hle.
  destruct (Z.eq_dec t1 (t2 + 1)) as [Heq|Hne]; [|lia].
  exfalso.
  assert (Hq : (inject_Z t1 == inject_Z t2 + 1)%Q).
  { rewrite Heq, inject_Z_plus. reflexivity. }
  assert (T1 : (Qabs (inject_Z t1 - x) == 1 # 2)%Q).
  { apply Qabs_case; intros; lra. }
  assert (T2 : (Qabs (inject_Z t2 - y) == 1 # 2)%Q).
  { apply Qabs_case; intros; lra. }
  apply E1 in T1. apply E2 in T2.
  rewrite Heq, Z.add_1_r, Z.even_succ, <- Z.negb_even, T2 in T1.
  discriminate.
Qed.

Lemma enrol_ratio_le (e1 e2 : Z) :
  e1 <= e2 -> (inject_Z e1 / 40 <= inject_Z e2 / 40)%Q.
Proof.
  intros H. unfold Qdiv, Qmult, Qinv, Qle, inject_Z; simpl. lia.
Qed.

Lemma nearest_enrol_bounds (e t : Z) :
  nearest_ties_even (inject_Z e / 40) t ->
  40 * t - 20 <= e <= 40 * t + 20 /\ (Z.abs (40 * t - e) = 20 -> Z.even t = true).
Proof.
  intros [H E].
  assert (Hq : (inject_Z t - inject_Z e / 40 == inject_Z (40 * t - e) / 40)%Q).
  { unfold Z.sub. rewrite inject_Z_plus, inject_Z_mult, inject_Z_opp.
    change (inject_Z 40) with 40%Q. field. }
  pose proof (Qabs_half_bounds _ H) as [Hlo Hhi].
  rewrite Hq in Hlo, Hhi.
  unfold Qdiv in Hlo, Hhi. change (/ 40)%Q with (1 # 40)%Q in Hlo, Hhi.
  assert (B : -20 <= 40 * t - e <= 20).
  { split; rewrite Zle_Qle.
    - change (inject_Z (-20)) with (-20)%Q. lra.
    - change (inject_Z 20) with 20%Q. lra. }
  split; [lia|].
  intros Habs. apply E. rewrite Hq.
  destruct (Z.abs_spec (40 * t - e)) as [[_ Ha]|[_ Ha]]; rewrite Ha in Habs.
  - rewrite Habs. reflexivity.
  - replace (40 * t - e) with (-20) by lia. reflexivity.
Qed.

(** X17.  For every record of [df], 40 times the teachers required is within 20
    of the enrolment, a school needs no teacher exactly when it has 20
    pupils or fewer, and it needs one teacher exactly from 21 to 59 (60
    pupils are a tie that goes up to 2). *)
Theorem teachers_required_bounds (csv : list Row) (d : list SchoolRecord)
        (s : SchoolRecord) :
  df csv = Ok d -> In s d ->
  exists e,
    TotalEnrol (row s) = Some e /\
    40 * Teachers_Required s - 20 <= e <= 40 * Teachers_Required s + 20 /\
    (Teachers_Required s = 0 <-> e <= 20) /\
    (Teachers_Required s = 1 <-> 21 <= e <= 59).
Proof.
  intros Hd Hs.
  destruct (df_In csv d s Hd Hs) as [r [_ [Hv Hr]]].
  destruct (derive_Ok r s Hr) as [e [He [Hrow [_ [_ [_ [Hreq _]]]]]]].
  apply valid_enrol_spec in Hv. destruct Hv as [v [Hv Hpos]].
  rewrite He in Hv; inversion Hv; subst v.
  pose proof (round_half_even_nearest (inject_Z e / 40)) as Hn.
  rewrite <- Hreq in Hn.
  assert (H0 : 0 <= Teachers_Required s).
  { rewrite Hreq. apply round_half_even_nonneg, enrol_ratio_nonneg, Hpos. }
  destruct (nearest_enrol_bounds e _ Hn) as [B T].
  exists e. rewrite Hrow. simpl. split; [exact He|]. split; [exact B|].
  split; split; intros H.
  - lia.
  - destruct (Z.eq_dec (Teachers_Required s) 0) as [E0|N0]; [exact E0|].
    assert (E1 : Teachers_Required s = 1) by lia.
    rewrite E1 in T. assert (e = 20) by lia. subst e.
    specialize (T eq_refl). discriminate.
  - rewrite H in B, T.
    destruct (Z.eq_dec e 20) as [->|]; [specialize (T eq_refl); discriminate|].
    destruct (Z.eq_dec e 60) as [->|]; [specialize (T eq_refl); discriminate|].
    lia.
  - lia.
Qed.

Lemma teachers_required_bounds_witness :
  df sample_csv = Ok sample_df /\
  In overstaffed_record sample_df /\
  exists e,
    TotalEnrol (row overstaffed_record) = Some e /\
    40 * Teachers_Required overstaffed_record - 20 <= e
      <= 40 * Teachers_Required overstaffed_record + 20 /\
    (Teachers_Required overstaffed_record = 0 <-> e <= 20) /\
    (Teachers_Required overstaffed_record = 1 <-> 21 <= e <= 59).
Proof.
  assert (Hd : df sample_csv = Ok sample_df) by reflexivity.
  assert (Hs : In overstaffed_record sample_df) by (simpl; tauto).
  split; [exact Hd|]. split; [exact Hs|].
  exact (teachers_required_bounds sample_csv sample_df overstaffed_record Hd Hs).
Defined.

(** X18.  Of two records of [df], the one with more pupils never requires fewer
    teachers. *)
Theorem teachers_required_monotone (csv : list Row) (d : list SchoolRecord)
        (s1 s2 : SchoolRecord) (e1 e2 : Z) :
  df csv = Ok d -> In s1 d -> In s2 d ->
  TotalEnrol (row s1) = Some e1 -> TotalEnrol (row s2) = Some e2 ->
  e1 <= e2 ->
  Teachers_Required s1 <= Teachers_Required s2.
Proof.
  intros Hd H1 H2 He1 He2 Hle.
  destruct (df_In csv d s1 Hd H1) as [r1 [_ [_ Hr1]]].
  destruct (df_In csv d s2 Hd H2) as [r2 [_ [_ Hr2]]].
  destruct (derive_Ok r1 s1 Hr1) as [x1 [Hx1 [Hrow1 [_ [_ [_ [Hreq1 _]]]]]]].
  destruct (derive_Ok r2 s2 Hr2) as [x2 [Hx2 [Hrow2 [_ [_ [_ [Hreq2 _]]]]]]].
  rewrite Hrow1 in He1. rewrite Hrow2 in He2. simpl in He1, He2.
  assert (x1 = e1) by congruence. assert (x2 = e2) by congruence. subst.
  rewrite Hreq1, Hreq2.
  apply (nearest_ties_even_monotone (inject_Z e1 / 40) (inject_Z e2 / 40)).
  - apply enrol_ratio_le, Hle.
  - apply round_half_even_nearest.
  - apply round_half_even_nearest.
Qed.

Lemma teachers_required_monotone_witness :
  df sample_csv = Ok sample_df /\
  In mwangaza_record sample_df /\ In kilimani_record sample_df /\
  TotalEnrol (row mwangaza_record) = Some 100 /\
  TotalEnrol (row kilimani_record) = Some 400 /\
  100 <= 400 /\
  Teachers_Required mwangaza_record <= Teachers_Required kilimani_record.
Proof.
  assert (Hd : df sample_csv = Ok sample_df) by reflexivity.
  assert (H1 : In mwangaza_record sample_df) by (simpl; tauto).
  assert (H2 : In kilimani_record sample_df) by (simpl; tauto).
  assert (E1 : TotalEnrol (row mwangaza_record) = Some 100) by reflexivity.
  assert (E2 : TotalEnrol (row kilimani_record) = Some 400) by reflexivity.
  assert (Hle : 100 <= 400) by lia.
  repeat (split; [assumption|]).
  exact (teachers_required_monotone sample_csv sample_df mwangaza_record
           kilimani_record 100 400 Hd H1 H2 E1 E2 Hle).
Defined.

(** ** Shortage levels, lines 89-93 *)

(** X19.  A cell gets no level exactly when the shortage is missing or is -1 or
    less: the lowest bin edge is -1 and is open. *)
Theorem Shortage_Level_None (x : option Z) :
  Shortage_Level x = None <-> x = None \/ exists s, x = Some s /\ s <= -1.
Proof.
  destruct x as [s|].
  - rewrite Shortage_Level_bins. split.
    + intros H. right. exists s. split; [reflexivity|].
      destruct (Z.leb_spec s (-1)); [assumption|].
      destruct (s <=? 0); [discriminate|].
      destruct (s <=? 19); [discriminate|].
      destruct (s <=? 39); discriminate.
    + intros [H|[s' [E Hs]]]; [discriminate|]. inversion E; subst s'.
      destruct (Z.leb_spec s (-1)); [reflexivity|lia].
  - split; [auto|reflexivity].
Qed.

(** X20.  The levels are ordered like the shortages: a larger shortage never
    gets a lower level. *)
Theorem Shortage_Level_monotone (s1 s2 : Z) (l1 l2 : Level) :
  s1 <= s2 ->
  Shortage_Level (Some s1) = Some l1 ->
  Shortage_Level (Some s2) = Some l2 ->
  severity l1 <= severity l2.
Proof.
  rewrite !Shortage_Level_bins. intros Hle H1 H2.
  destruct (Z.leb_spec s1 (-1)); [discriminate|].
  destruct (Z.leb_spec s2 (-1)); [discriminate|].
  destruct (Z.leb_spec s1 0), (Z.leb_spec s2 0);
    try (inversion H1; inversion H2; subst; simpl; lia);
  destruct (Z.leb_spec s1 19), (Z.leb_spec s2 19);
    try (inversion H1; inversion H2; subst; simpl; lia);
  destruct (Z.leb_spec s1 39), (Z.leb_spec s2 39);
    inversion H1; inversion H2; subst; simpl; lia.
Qed.

Lemma Shortage_Level_monotone_witness :
  19 <= 20 /\
  Shortage_Level (Some 19) = Some Low /\
  Shortage_Level (Some 20) = Some Moderate /\
  severity Low <= severity Moderate.
Proof.
  assert (Hle : 19 <= 20) by lia.
  assert (H1 : Shortage_Level (Some 19) = Some Low) by reflexivity.
  assert (H2 : Shortage_Level (Some 20) = Some Moderate) by reflexivity.
  repeat (split; [assumption|]).
  exact (Shortage_Level_monotone 19 20 Low Moderate Hle H1 H2).
Defined.

(** ** Markers, lines 83-129 *)

Lemma derive_other_columns (r : Row) (s : SchoolRecord) :
  derive r = Ok s ->
  Gender_Enrol_Gap s = Pandas.sub (TotalGirls r) (TotalBoys r) /\
  No_Classrooms s = null_as_zero (No_Classrm r) /\
  Toilet_Deficit s = toilet_deficit (TotalToile r).
Proof.
  unfold derive. simpl.
  destruct (TotalEnrol r) as [e|]; simpl; [|discriminate].
  rewrite !fillna_null_as_zero. simpl.
  intros H. inversion H; subst; clear H. simpl. auto.
Qed.

Lemma levelled_origin (csv : list Row) (d : list SchoolRecord)
      (province district : string) (m : LevelledRow) :
  df csv = Ok d ->
  In m (add_Shortage_Level (map_data (filtered_df d province district))) ->
  exists s r,
    In s (filtered_df d province district) /\
    In r csv /\ derive r = Ok s /\
    point m = select_map_columns s /\
    level m = Shortage_Level (Teacher_Shortage s) /\
    complete (select_map_columns s) = true.
Proof.
  intros Hd Hm. unfold add_Shortage_Level in Hm.
  apply in_map_iff in Hm. destruct Hm as [p [<- Hp]].
  apply map_data_In in Hp. destruct Hp as [[s [Hs ->]] Hc].
  destruct (df_In csv d s Hd (filtered_df_In _ _ _ _ Hs)) as [r [Hr [_ Hrs]]].
  exists s, r. simpl. repeat split; auto.
Qed.

Lemma shortage_of_derived (r : Row) (s : SchoolRecord) :
  derive r = Ok s ->
  Teachers_Required s = required_of r /\
  Total_Teachers_Recalc s = Some (teachers_of r) /\
  Teacher_Shortage s = Some (shortage_of r).
Proof.
  intros H. destruct (derive_Ok r s H) as [e [He [_ [_ [_ [Ht [Hreq Hsh]]]]]]].
  unfold shortage_of, required_of, teachers_of, enrolment_of.
  rewrite He. simpl. rewrite <- Hreq. auto.
Qed.

(** X21.  Every marker of the teacher-shortage map stands for a loaded row: it
    carries the row's label, coordinates and school name, all three
    present; it shows the row's shortage and teacher total, and its colour
    is the level of that shortage - "No Shortage" exactly when the school
    has at least the teachers it requires. *)
Theorem shortage_marker (csv : list Row) (province district : string)
        (page : Page) (m : Marker (option Level)) :
  dashboard csv province district = Ok page -> In m (map_shortage page) ->
  exists r l,
    In r csv /\ source m = index r /\
    lat m = Latitude r /\ lon m = Longitude r /\ hover_name m = Name_of_Sc r /\
    lat m <> None /\ lon m <> None /\ hover_name m <> None /\
    hover_data m = (Some (shortage_of r), Some (teachers_of r)) /\
    color m = Some l /\
    Shortage_Level (Some (shortage_of r)) = Some l /\
    (l = No_Shortage <-> required_of r <= teachers_of r).
Proof.
  intros Hpage Hm.
  destruct (dashboard_Ok _ _ _ _ Hpage) as [d [Hd ->]]. simpl in Hm.
  apply in_map_iff in Hm. destruct Hm as [lr [<- Hlr]].
  destruct (levelled_origin csv d province district lr Hd Hlr)
    as [s [r [Hs [Hr [Hrs [Hpt [Hlv Hc]]]]]]].
  destruct (derive_Ok r s Hrs) as [e [_ [Hrow _]]].
  destruct (shortage_of_derived r s Hrs) as [Hreq [Ht Hsh]].
  apply complete_select in Hc; [|congruence|congruence].
  destruct Hc as [Hlat [Hlon [Hname _]]].
  rewrite Hrow in Hlat, Hlon, Hname. simpl in Hlat, Hlon, Hname.
  assert (H0 : 0 <= shortage_of r) by (unfold shortage_of; lia).
  assert (Hl : exists l, Shortage_Level (Some (shortage_of r)) = Some l /\
                         (l = No_Shortage <-> shortage_of r = 0)).
  { rewrite Shortage_Level_bins.
    destruct (Z.leb_spec (shortage_of r) (-1)); [lia|].
    destruct (Z.leb_spec (shortage_of r) 0);
      [eexists; split; [reflexivity|]; split; intros; [lia|reflexivity]|].
    destruct (shortage_of r <=? 19);
      [eexists; split; [reflexivity|]; split; intros; [discriminate|lia]|].
    destruct (shortage_of r <=? 39);
      eexists; (split; [reflexivity|]); split; intros; try discriminate; lia. }
  destruct Hl as [l [Hl Hno]].
  exists r, l. simpl. rewrite Hpt. simpl. rewrite Hrow, Hlv, Hsh, Ht. simpl.
  repeat split; auto.
  - intros H. apply Hno in H. unfold shortage_of in H. lia.
  - intros H. apply Hno. unfold shortage_of. lia.
Qed.

Lemma shortage_marker_witness :
  dashboard sample_csv "All" "All" = Ok sample_page /\
  In {| source := 0%nat;
        lat := Latitude kilimani; lon := Longitude kilimani;
        hover_name := Name_of_Sc kilimani;
        hover_data := (Some 2, Some 8);
        color := Some Low |} (map_shortage sample_page) /\
  exists r l,
    In r sample_csv /\ 0%nat = index r /\
    Latitude kilimani = Latitude r /\ Longitude kilimani = Longitude r /\
    Name_of_Sc kilimani = Name_of_Sc r /\
    Latitude kilimani <> None /\ Longitude kilimani <> None /\
    Name_of_Sc kilimani <> None /\
    (Some 2, Some 8) = (Some (shortage_of r), Some (teachers_of r)) /\
    Some Low = Some l /\
    Shortage_Level (Some (shortage_of r)) = Some l /\
    (l = No_Shortage <-> required_of r <= teachers_of r).
Proof.
  assert (Hp : dashboard sample_csv "All" "All" = Ok sample_page) by reflexivity.
  assert (Hm : In {| source := 0%nat;
                     lat := Latitude kilimani; lon := Longitude kilimani;
                     hover_name := Name_of_Sc kilimani;
                     hover_data := (Some 2, Some 8);
                     color := Some Low |} (map_shortage sample_page))
    by (left; reflexivity).
  split; [exact Hp|]. split; [exact Hm|].
  exact (shortage_marker sample_csv "All" "All" sample_page _ Hp Hm).
Defined.

(** X22.  Every marker of the infrastructure map stands for a loaded row with a
    toilet count: it carries the row's label, coordinates and school name,
    and its colour is the row's classroom count, a missing count taken as
    0, plus its toilet count. *)
Theorem infra_marker (csv : list Row) (province district : string)
        (page : Page) (m : Marker (option Z)) :
  dashboard csv province district = Ok page -> In m (map_infra page) ->
  exists r toilets,
    In r csv /\ source m = index r /\
    lat m = Latitude r /\ lon m = Longitude r /\ hover_name m = Name_of_Sc r /\
    TotalToile r = Some toilets /\
    hover_data m = (Some (null_as_zero (No_Classrm r)), Some toilets) /\
    color m = Some (null_as_zero (No_Classrm r) + toilets).
Proof.
  intros Hpage Hm.
  destruct (dashboard_Ok _ _ _ _ Hpage) as [d [Hd ->]]. simpl in Hm.
  apply in_map_iff in Hm. destruct Hm as [lr [<- Hlr]].
  destruct (levelled_origin csv d province district lr Hd Hlr)
    as [s [r [Hs [Hr [Hrs [Hpt [Hlv Hc]]]]]]].
  destruct (derive_Ok r s Hrs) as [e [_ [Hrow _]]].
  destruct (shortage_of_derived r s Hrs) as [_ [Ht Hsh]].
  destruct (derive_other_columns r s Hrs) as [_ [Hcl _]].
  apply complete_select in Hc; [|congruence|congruence].
  destruct Hc as [_ [_ [_ Htoilet]]].
  rewrite Hrow in Htoilet. simpl in Htoilet.
  destruct (TotalToile r) as [t|] eqn:Et; [|contradiction Htoilet; reflexivity].
  exists r, t. unfold infra_color. simpl. rewrite Hpt. simpl.
  rewrite Hrow, Hcl. simpl. rewrite Et. simpl. repeat split; auto.
Qed.

Lemma infra_marker_witness :
  dashboard sample_csv "All" "All" = Ok sample_page /\
  In {| source := 5%nat;
        lat := Latitude overstaffed; lon := Longitude overstaffed;
        hover_name := Name_of_Sc overstaffed;
        hover_data := (Some 9, Some 12);
        color := Some 21 |} (map_infra sample_page) /\
  exists r toilets,
    In r sample_csv /\ 5%nat = index r /\
    Latitude overstaffed = Latitude r /\ Longitude overstaffed = Longitude r /\
    Name_of_Sc overstaffed = Name_of_Sc r /\
    TotalToile r = Some toilets /\
    (Some 9, Some 12) = (Some (null_as_zero (No_Classrm r)), Some toilets) /\
    Some 21 = Some (null_as_zero (No_Classrm r) + toilets).
Proof.
  assert (Hp : dashboard sample_csv "All" "All" = Ok sample_page) by reflexivity.
  assert (Hm : In {| source := 5%nat;
                     lat := Latitude overstaffed; lon := Longitude overstaffed;
                     hover_name := Name_of_Sc overstaffed;
                     hover_data := (Some 9, Some 12);
                     color := Some 21 |} (map_infra sample_page))
    by (right; left; reflexivity).
  split; [exact Hp|]. split; [exact Hm|].
  exact (infra_marker sample_csv "All" "All" sample_page _ Hp Hm).
Defined.

(** ** The other derived columns, lines 20-22 *)

Lemma toilet_deficit_spec (x : option Z) :
  (toilet_deficit x = 1 <-> x = None \/ exists t, x = Some t /\ t <= 0) /\
  (toilet_deficit x = 0 <-> exists t, x = Some t /\ 0 < t).
Proof.
  unfold toilet_deficit, Pandas.isna, Pandas.le.
  destruct x as [t|]; simpl.
  - destruct (Z.leb_spec t 0) as [Hle|Hgt]; split; split; intros X;
      try discriminate X; try reflexivity;
      try (right; exists t; auto; fail);
      try (exists t; auto; fail);
      try (destruct X as [X|X]; [discriminate X|]);
      destruct X as [t' [E Ht]]; inversion E; subst; lia.
  - split; split; intros X; try discriminate X; try reflexivity; auto.
    destruct X as [t [E _]]. discriminate E.
Qed.

(** X23.  For every record of [df] and the loaded row it comes from: the gender
    gap is girls minus boys and is missing as soon as one of the two counts
    is missing; the classroom count is the loaded one, a missing count
    becoming 0; the toilet-deficit flag is 1 when the toilet count is missing
    or not positive and 0 otherwise. *)
Theorem other_derived_columns (csv : list Row) (d : list SchoolRecord)
        (s : SchoolRecord) :
  df csv = Ok d -> In s d ->
  exists r,
    In r csv /\ derive r = Ok s /\
    (forall g b, TotalGirls r = Some g -> TotalBoys r = Some b ->
                 Gender_Enrol_Gap s = Some (g - b)) /\
    (TotalGirls r = None \/ TotalBoys r = None -> Gender_Enrol_Gap s = None) /\
    No_Classrooms s = null_as_zero (No_Classrm r) /\
    (Toilet_Deficit s = 1 <->
     TotalToile r = None \/ exists t, TotalToile r = Some t /\ t <= 0) /\
    (Toilet_Deficit s = 0 <-> exists t, TotalToile r = Some t /\ 0 < t).
Proof.
  intros Hd Hs.
  destruct (df_In csv d s Hd Hs) as [r [Hr [_ Hrs]]].
  destruct (derive_other_columns r s Hrs) as [Hgap [Hcl Htd]].
  exists r. split; [exact Hr|]. split; [exact Hrs|].
  split; [|split; [|split; [exact Hcl|]]].
  - intros g b Hg Hb. rewrite Hgap, Hg, Hb. reflexivity.
  - intros [H|H]; rewrite Hgap, H; [reflexivity|].
    destruct (TotalGirls r); reflexivity.
  - rewrite Htd. apply toilet_deficit_spec.
Qed.

Lemma other_derived_columns_witness :
  df sample_csv = Ok sample_df /\
  In mwangaza_record sample_df /\
  exists r,
    In r sample_csv /\ derive r = Ok mwangaza_record /\
    (forall g b, TotalGirls r = Some g -> TotalBoys r = Some b ->
                 Gender_Enrol_Gap mwangaza_record = Some (g - b)) /\
    (TotalGirls r = None \/ TotalBoys r = None ->
     Gender_Enrol_Gap mwangaza_record = None) /\
    No_Classrooms mwangaza_record = null_as_zero (No_Classrm r) /\
    (Toilet_Deficit mwangaza_record = 1 <->
     TotalToile r = None \/ exists t, TotalToile r = Some t /\ t <= 0) /\
    (Toilet_Deficit mwangaza_record = 0 <-> exists t, TotalToile r = Some t /\ 0 < t).
Proof.
  assert (Hd : df sample_csv = Ok sample_df) by reflexivity.
  assert (Hs : In mwangaza_record sample_df) by (simpl; tauto).
  split; [exact Hd|]. split; [exact Hs|].
  exact (other_derived_columns sample_csv sample_df mwangaza_record Hd Hs).
Defined.

(** ** Selecting in two steps *)

(** X24.  Choosing the province first and the district afterwards, or the other
    way round, shows the same records as choosing both at once. *)
Theorem filtered_df_compose (d : list SchoolRecord) (province district : string) :
  filtered_df (filtered_df d province "All") "All" district =
    filtered_df d province district /\
  filtered_df (filtered_df d "All" district) province "All" =
    filtered_df d province district.
Proof.
  unfold filtered_df. rewrite !region_stage_mask, !filter_filter.
  split; apply filter_ext; intros s; unfold region_mask; simpl;
    destruct (String.eqb province "All"), (String.eqb district "All"),
      (String.eqb (Province (row s)) province),
      (String.eqb (District (row s)) district); reflexivity.
Qed.

(** ** Missing map columns and the views of the page *)









